(** * Routing decision engine of the orchestrator service

    A shallow embedding of the four Python modules that make up the model
    routing layer

      - [services/orchestrator/app/model_registry.py]     (Module [Registry])
      - [services/orchestrator/app/routing_policies.py]   (Module [Policies])
      - [services/orchestrator/app/intelligent_router.py] (Module [Router])
      - [services/orchestrator/app/azure_openai_client.py] (Module [Client])

    Python dictionaries are finite maps ([gmap]), [Optional[T]] is [option T],
    Python [int] is [Z].  Python [float] values (costs, budgets, confidence
    scores) are idealised as exact rationals [Q]: rounding, NaN and the
    infinities are outside the model; the one place where a number that is
    too large makes the router raise is modelled apart, in [Checked].  The wall clock ([datetime.now()]) is
    read by the caller and passed in: [now] is the timestamp, [month] its
    ["%Y-%m"] rendering. *)

From Stdlib Require Import QArith Ascii Lqa.
From stdpp Require Import gmap strings list fin_maps.

Local Open Scope string_scope.
Set Warnings "-register-all".

(** ** Python truthiness *)

Module Py.

(** [bool(s)] for a [str]. *)
Definition str_truthy (s : string) : bool := bool_decide (s ≠ "").

(** [bool(o)] for an [Optional[str]]. *)
Definition opt_str_truthy (o : option string) : bool :=
  match o with
  | Some s => str_truthy s
  | None => false
  end.

(** [bool(x)] for a number. *)
Definition num_truthy (q : Q) : bool := negb (Qeq_bool q 0).
Definition int_truthy (z : Z) : bool := bool_decide (z ≠ 0%Z).

(** [a < b] on numbers. *)
Definition ltb (a b : Q) : bool := negb (Qle_bool b a).

(** [o or d] for an [Optional] number [o]: [None] and zero are falsy. *)
Definition num_or (o : option Q) (d : Q) : Q :=
  match o with
  | Some q => if num_truthy q then q else d
  | None => d
  end.

Definition int_or (o : option Z) (d : Z) : Z :=
  match o with
  | Some z => if int_truthy z then z else d
  | None => d
  end.

(** [d.get(k, dflt)] *)
Definition dict_get `{Countable K} {V} (d : gmap K V) (k : K) (dflt : V) : V :=
  default dflt (d !! k).

End Py.

(** ** Decoded configuration files

    What [json.load] returns.  A JSON object is listed as its items, in
    order, with pairwise distinct keys. *)

Module Json.

Inductive json :=
| JNull
| JBool (b : bool)
| JInt (z : Z)
| JReal (q : Q)
| JStr (s : string)
| JList (l : list json)
| JDict (items : list (string * json)).

(** Fallible steps return [option]: [None] stands for a raised exception
    ([KeyError], [TypeError], [AttributeError], ...), all of which the
    loaders catch with the same [except Exception] handler. *)

(** [d[k]] *)
Fixpoint getitem (k : string) (items : list (string * json)) : option json :=
  match items with
  | [] => None
  | (k', v) :: rest => if decide (k' = k) then Some v else getitem k rest
  end.

(** [config.get(k, dflt)]: only a dict has [get]. *)
Definition get (config : json) (k : string) (dflt : json) : option json :=
  match config with
  | JDict items => Some (default dflt (getitem k items))
  | _ => None
  end.

Fixpoint chars (s : string) : list json :=
  match s with
  | EmptyString => []
  | String c rest => JStr (String c EmptyString) :: chars rest
  end.

(** [for x in v]: a list yields its elements, a dict its keys, a string its
    characters; anything else is not iterable. *)
Definition iter (v : json) : option (list json) :=
  match v with
  | JList l => Some l
  | JDict items => Some (JStr <$> items.*1)
  | JStr s => Some (chars s)
  | _ => None
  end.

(** Readers for fields of the annotated type.  The dataclasses do not check
    their field types; the embedding takes the annotations as the types, so
    a value of another JSON type is outside the typed model and is treated
    like a missing one.  [Typed], further down, says which files are inside
    the typed model; the properties of the loaders are stated for those. *)
Definition as_str (v : json) : option string :=
  match v with JStr s => Some s | _ => None end.

Definition as_opt_str (v : json) : option (option string) :=
  match v with JStr s => Some (Some s) | JNull => Some None | _ => None end.

Definition as_int (v : json) : option Z :=
  match v with JInt z => Some z | _ => None end.

Definition as_num (v : json) : option Q :=
  match v with JInt z => Some (inject_Z z) | JReal q => Some q | _ => None end.

Definition as_bool (v : json) : option bool :=
  match v with JBool b => Some b | _ => None end.

Definition as_dict (v : json) : option (list (string * json)) :=
  match v with JDict items => Some items | _ => None end.

Definition as_str_list (v : json) : option (list string) :=
  match v with JList l => mapM as_str l | _ => None end.

(** A dataclass constructor called with the items of a dict as keyword
    arguments: every field without a default must be given and no other
    keyword is accepted. *)
Definition kwargs_ok (required optional : list string)
    (items : list (string * json)) : bool :=
  forallb (λ k, bool_decide (k ∈ items.*1)) required
  && forallb (λ k, bool_decide (k ∈ (required ++ optional)%list)) items.*1.

(** A field with a default value. *)
Definition field_default {A} (rd : json → option A) (k : string) (dflt : A)
    (items : list (string * json)) : option A :=
  match getitem k items with
  | Some v => rd v
  | None => Some dflt
  end.

(** What is on disk at [config_path] when a loader runs. *)
Inductive config_file :=
| NoFile                    (* os.path.exists(config_path) is False *)
| Unreadable                (* open or json.load raises *)
| Contents (config : json). (* json.load returns config *)

End Json.

(** A reading of the wall clock. *)
Definition timestamp := Z.

(** ** model_registry.py *)

Module Registry.

Record PerformanceMetrics := {
  latency : string;
  quality : string;
  context_length : Z
}.

Record RateLimits := {
  requests_per_minute : Z;
  tokens_per_minute : Z
}.

Record CostPerToken := {
  input : Q;
  output : Q
}.

Record ModelInfo := {
  deployment_name : string;
  endpoint : string;
  api_version : string;
  capabilities : list string;
  performance_metrics : PerformanceMetrics;
  tags : list string;
  health_status : string;
  rate_limits : RateLimits;
  cost_per_token : CostPerToken;
  last_health_check : option timestamp;
  error_count : Z;
  total_requests : Z;
  total_tokens : Z
}.

(** The attributes of a [ModelRegistry] instance that change after
    construction. *)
Record ModelRegistry := {
  models : gmap string ModelInfo;
  last_config_load : option timestamp
}.

Definition get_model (r : ModelRegistry) (name : string) : option ModelInfo :=
  models r !! name.

Definition set_health (m : ModelInfo) (status : string) (now : timestamp)
    (count : Z) : ModelInfo :=
  {| deployment_name := deployment_name m;
     endpoint := endpoint m;
     api_version := api_version m;
     capabilities := capabilities m;
     performance_metrics := performance_metrics m;
     tags := tags m;
     health_status := status;
     rate_limits := rate_limits m;
     cost_per_token := cost_per_token m;
     last_health_check := Some now;
     error_count := count;
     total_requests := total_requests m;
     total_tokens := total_tokens m |}.

Definition add_usage (m : ModelInfo) (request_count token_count : Z) : ModelInfo :=
  {| deployment_name := deployment_name m;
     endpoint := endpoint m;
     api_version := api_version m;
     capabilities := capabilities m;
     performance_metrics := performance_metrics m;
     tags := tags m;
     health_status := health_status m;
     rate_limits := rate_limits m;
     cost_per_token := cost_per_token m;
     last_health_check := last_health_check m;
     error_count := error_count m;
     total_requests := (total_requests m + request_count)%Z;
     total_tokens := (total_tokens m + token_count)%Z |}.

(** [update_model_health(deployment_name, health_status, error_count=0)]:
    the three assignments go to the entry stored under the name; an unknown
    name leaves the registry as it is. *)
Definition update_model_health (now : timestamp) (r : ModelRegistry)
    (name : string) (status : string) (count : Z) : ModelRegistry :=
  match models r !! name with
  | Some m =>
      {| models := <[name := set_health m status now count]> (models r);
         last_config_load := last_config_load r |}
  | None => r
  end.

(** [record_usage(deployment_name, request_count=1, token_count=0)] *)
Definition record_usage (r : ModelRegistry) (name : string)
    (request_count token_count : Z) : ModelRegistry :=
  match models r !! name with
  | Some m =>
      {| models := <[name := add_usage m request_count token_count]> (models r);
         last_config_load := last_config_load r |}
  | None => r
  end.

(** [get_model_cost_estimate(deployment_name, input_tokens, output_tokens)],
    with the products taken in [Q].  The code multiplies an [int] by a
    [float], which converts the [int] and can raise; [Checked], further down,
    writes that conversion out. *)
Definition get_model_cost_estimate (r : ModelRegistry) (name : string)
    (input_tokens output_tokens : Z) : Q :=
  match get_model r name with
  | Some m =>
      let input_cost := (inject_Z input_tokens * input (cost_per_token m))%Q in
      let output_cost := (inject_Z output_tokens * output (cost_per_token m))%Q in
      (input_cost + output_cost)%Q
  | None => 0%Q
  end.

(** *** Loading the catalog *)

Section Load.

(** [os.environ] *)
Variable environ : gmap string string.

Definition getenv_or (name value : string) : string :=
  match environ !! name with
  | Some resolved => if Py.str_truthy resolved then resolved else value
  | None => value
  end.

Definition _resolve_environment_variables (value : string) : string :=
  match value with
  | String "$"%char env_var => getenv_or env_var value
  | _ => getenv_or value value
  end.

(** One value of the dict walked by [_resolve_model_data]: a nested dict is
    resolved recursively, a list has its string items resolved, a string
    is resolved, anything else is kept. *)
Fixpoint resolve_value (v : Json.json) : Json.json :=
  match v with
  | Json.JDict items =>
      Json.JDict (map (λ kv, (kv.1, resolve_value kv.2)) items)
  | Json.JList l =>
      Json.JList (map (λ item,
        match item with
        | Json.JStr s => Json.JStr (_resolve_environment_variables s)
        | _ => item
        end) l)
  | Json.JStr s => Json.JStr (_resolve_environment_variables s)
  | _ => v
  end.

(** [model_data.items()] needs a dict. *)
Definition _resolve_model_data (model_data : Json.json)
    : option (list (string * Json.json)) :=
  match model_data with
  | Json.JDict items => Some (map (λ kv, (kv.1, resolve_value kv.2)) items)
  | _ => None
  end.

Definition make_PerformanceMetrics (v : Json.json) : option PerformanceMetrics :=
  items ← Json.as_dict v;
  guard (Json.kwargs_ok ["latency"; "quality"; "context_length"] [] items = true);;
  l ← Json.getitem "latency" items ≫= Json.as_str;
  q ← Json.getitem "quality" items ≫= Json.as_str;
  c ← Json.getitem "context_length" items ≫= Json.as_int;
  Some {| latency := l; quality := q; context_length := c |}.

Definition make_RateLimits (v : Json.json) : option RateLimits :=
  items ← Json.as_dict v;
  guard (Json.kwargs_ok ["requests_per_minute"; "tokens_per_minute"] [] items = true);;
  r ← Json.getitem "requests_per_minute" items ≫= Json.as_int;
  t ← Json.getitem "tokens_per_minute" items ≫= Json.as_int;
  Some {| requests_per_minute := r; tokens_per_minute := t |}.

Definition make_CostPerToken (v : Json.json) : option CostPerToken :=
  items ← Json.as_dict v;
  guard (Json.kwargs_ok ["input"; "output"] [] items = true);;
  i ← Json.getitem "input" items ≫= Json.as_num;
  o ← Json.getitem "output" items ≫= Json.as_num;
  Some {| input := i; output := o |}.

Definition _create_model_info (model_data : list (string * Json.json))
    : option ModelInfo :=
  name ← Json.getitem "deployment_name" model_data ≫= Json.as_str;
  ep ← Json.getitem "endpoint" model_data ≫= Json.as_str;
  ver ← Json.getitem "api_version" model_data ≫= Json.as_str;
  caps ← Json.getitem "capabilities" model_data ≫= Json.as_str_list;
  perf ← Json.getitem "performance_metrics" model_data ≫= make_PerformanceMetrics;
  tgs ← Json.getitem "tags" model_data ≫= Json.as_str_list;
  health ← Json.getitem "health_status" model_data ≫= Json.as_str;
  limits ← Json.getitem "rate_limits" model_data ≫= make_RateLimits;
  cost ← Json.getitem "cost_per_token" model_data ≫= make_CostPerToken;
  Some {| deployment_name := name;
          endpoint := ep;
          api_version := ver;
          capabilities := caps;
          performance_metrics := perf;
          tags := tgs;
          health_status := health;
          rate_limits := limits;
          cost_per_token := cost;
          last_health_check := None;
          error_count := 0;
          total_requests := 0;
          total_tokens := 0 |}.

(** The body of the [for model_data in ...] loop, run on a dict that is
    filled in place: the result is the dict as the loop leaves it and
    whether the loop ran to its end ([false]: an entry raised). *)
Fixpoint load_models (entries : list Json.json) (acc : gmap string ModelInfo)
    : gmap string ModelInfo * bool :=
  match entries with
  | [] => (acc, true)
  | model_data :: rest =>
      match _resolve_model_data model_data ≫= _create_model_info with
      | Some model => load_models rest (<[deployment_name model := model]> acc)
      | None => (acc, false)
      end
  end.

(** [load_config()].  The [try] block first tests for the file and decodes
    it; then it clears [self.models] in place and fills it entry by entry;
    [last_config_load] is set after the loop.  The [except Exception]
    handler only logs, so an exception leaves [self.models] as it is at
    the point of the raise. *)
Definition load_config (now : timestamp) (file : Json.config_file)
    (r : ModelRegistry) : ModelRegistry :=
  match file with
  | Json.NoFile => r
  | Json.Unreadable => r
  | Json.Contents config =>
      let cleared := {| models := ∅; last_config_load := last_config_load r |} in
      match Json.get config "models" (Json.JList []) ≫= Json.iter with
      | None => cleared
      | Some entries =>
          let '(ms, completed) := load_models entries ∅ in
          {| models := ms;
             last_config_load :=
               if completed then Some now else last_config_load r |}
      end
  end.

Definition refresh_config := load_config.

End Load.

End Registry.

(** ** routing_policies.py *)

Module Policies.

Record ModelSelectionRules := {
  primary : string;
  fallback : option string;
  budget_fallback : option string
}.

Record BudgetConstraints := {
  monthly_budget : Q;
  cost_threshold : Q;
  automatic_downshift : bool
}.

Record FeatureFlags := {
  a_b_testing : bool;
  quality_priority : bool
}.

Record RoutingPolicy := {
  tenant_id : string;
  feature : string;
  model_selection_rules : ModelSelectionRules;
  budget_constraints : BudgetConstraints;
  feature_flags : FeatureFlags;
  created_at : timestamp;
  updated_at : timestamp
}.

(** [policies] is keyed by ["{tenant_id}:{feature}"]; [budget_tracker] maps
    a tenant to its spend per month. *)
Record RoutingPolicyManager := {
  policies : gmap string RoutingPolicy;
  budget_tracker : gmap string (gmap string Q)
}.

Definition policy_key (tenant feat : string) : string :=
  tenant +:+ ":" +:+ feat.

Definition get_policy (self : RoutingPolicyManager) (tenant feat : string)
    : option RoutingPolicy :=
  policies self !! policy_key tenant feat.

Definition get_default_policy (self : RoutingPolicyManager) (feat : string)
    : option RoutingPolicy :=
  get_policy self "default" feat.

(** The manager reads the module-level [model_registry]; it is passed in. *)
Definition _validate_model_capabilities (registry : Registry.ModelRegistry)
    (name : string) (required_capabilities : list string) : bool :=
  match required_capabilities with
  | [] => true
  | _ =>
      match Registry.get_model registry name with
      | None => false
      | Some model =>
          if bool_decide (Registry.health_status model ≠ "healthy") then false
          else forallb (λ cap, bool_decide (cap ∈ Registry.capabilities model))
                       required_capabilities
      end
  end.

(** The spend recorded for a tenant in a month:
    [budget_tracker.get(tenant_id, {}).get(current_month, 0.0)]. *)
Definition current_spend (self : RoutingPolicyManager) (tenant month : string) : Q :=
  Py.dict_get (Py.dict_get (budget_tracker self) tenant ∅) month 0%Q.

Definition _check_budget_constraints (month : string) (self : RoutingPolicyManager)
    (tenant : string) (policy : RoutingPolicy) (budget_override : option Q) : bool :=
  if negb (automatic_downshift (budget_constraints policy)) then true
  else
    let current_budget := current_spend self tenant month in
    let budget_limit :=
      Py.num_or budget_override (monthly_budget (budget_constraints policy)) in
    let threshold := (budget_limit * cost_threshold (budget_constraints policy))%Q in
    Py.ltb current_budget threshold.

(** [record_usage_cost(tenant_id, amount)]: the two missing entries are
    created, then [amount] is added to the month's entry.  The body has no
    test on [amount] and no [raise]. *)
Definition record_usage_cost (month : string) (self : RoutingPolicyManager)
    (tenant : string) (amount : Q) : RoutingPolicyManager :=
  let per_month := default ∅ (budget_tracker self !! tenant) in
  let before := default 0%Q (per_month !! month) in
  {| policies := policies self;
     budget_tracker :=
       <[tenant := <[month := (before + amount)%Q]> per_month]> (budget_tracker self) |}.

(** *** Loading the policies *)

Section Load.

Variable now : timestamp.

Definition make_ModelSelectionRules (v : Json.json) : option ModelSelectionRules :=
  items ← Json.as_dict v;
  guard (Json.kwargs_ok ["primary"] ["fallback"; "budget_fallback"] items = true);;
  p ← Json.getitem "primary" items ≫= Json.as_str;
  f ← Json.field_default Json.as_opt_str "fallback" None items;
  b ← Json.field_default Json.as_opt_str "budget_fallback" None items;
  Some {| primary := p; fallback := f; budget_fallback := b |}.

Definition make_BudgetConstraints (v : Json.json) : option BudgetConstraints :=
  items ← Json.as_dict v;
  guard (Json.kwargs_ok ["monthly_budget"; "cost_threshold"]
                        ["automatic_downshift"] items = true);;
  m ← Json.getitem "monthly_budget" items ≫= Json.as_num;
  c ← Json.getitem "cost_threshold" items ≫= Json.as_num;
  a ← Json.field_default Json.as_bool "automatic_downshift" true items;
  Some {| monthly_budget := m; cost_threshold := c; automatic_downshift := a |}.

Definition make_FeatureFlags (v : Json.json) : option FeatureFlags :=
  items ← Json.as_dict v;
  guard (Json.kwargs_ok [] ["a_b_testing"; "quality_priority"] items = true);;
  a ← Json.field_default Json.as_bool "a_b_testing" false items;
  q ← Json.field_default Json.as_bool "quality_priority" true items;
  Some {| a_b_testing := a; quality_priority := q |}.

(** [policy_data[...]] needs a dict. *)
Definition _create_routing_policy (policy_data : Json.json) : option RoutingPolicy :=
  items ← Json.as_dict policy_data;
  t ← Json.getitem "tenant_id" items ≫= Json.as_str;
  f ← Json.getitem "feature" items ≫= Json.as_str;
  rules ← Json.getitem "model_selection_rules" items ≫= make_ModelSelectionRules;
  budget ← Json.getitem "budget_constraints" items ≫= make_BudgetConstraints;
  flags ← Json.getitem "feature_flags" items ≫= make_FeatureFlags;
  Some {| tenant_id := t;
          feature := f;
          model_selection_rules := rules;
          budget_constraints := budget;
          feature_flags := flags;
          created_at := now;
          updated_at := now |}.

Fixpoint load_entries (entries : list Json.json) (acc : gmap string RoutingPolicy)
    : gmap string RoutingPolicy :=
  match entries with
  | [] => acc
  | policy_data :: rest =>
      match _create_routing_policy policy_data with
      | Some policy =>
          load_entries rest
            (<[policy_key (tenant_id policy) (feature policy) := policy]> acc)
      | None => acc
      end
  end.

(** [load_policies()]: same shape as the catalog loader; [self.policies] is
    cleared in place once the file is decoded. *)
Definition load_policies (file : Json.config_file) (self : RoutingPolicyManager)
    : RoutingPolicyManager :=
  match file with
  | Json.NoFile => self
  | Json.Unreadable => self
  | Json.Contents config =>
      {| policies :=
           match Json.get config "routing_policies" (Json.JList []) ≫= Json.iter with
           | None => ∅
           | Some entries => load_entries entries ∅
           end;
         budget_tracker := budget_tracker self |}
  end.

Definition refresh_policies := load_policies.

End Load.

End Policies.

(** ** intelligent_router.py *)

Module Router.

Record RoutingRequest := {
  tenant_id : string;
  feature : string;
  required_capabilities : list string;
  quality_priority : option bool;
  budget_override : option Q;
  latency_requirement : option string;
  context_length_estimate : option Z;
  user_override : option string
}.

Record RoutingResponse := {
  selected_model : string;
  routing_reason : string;
  fallback_used : bool;
  budget_impact : Q;
  estimated_latency : string;
  confidence_score : Q
}.

(** One entry of [usage_tracker[tenant_id][deployment_name]]. *)
Record UsageEntry := {
  total_requests : Z;
  last_used : option timestamp
}.

(** The router holds references to the module-level registry and policy
    manager; the client reaches both through the router, so there is one
    copy of each. *)
Record IntelligentRouter := {
  model_registry : Registry.ModelRegistry;
  routing_policy_manager : Policies.RoutingPolicyManager;
  usage_tracker : gmap string (gmap string UsageEntry)
}.

(** The messages the router puts in [routing_reason]. *)
Definition reason_user_override := "User override".
Definition reason_budget := "Budget constraint - using cost-optimized model".
Definition reason_fallback := "Primary model unavailable - using fallback".
Definition reason_primary := "Primary model selected".
Definition reason_no_policy := "No routing policy found".
Definition reason_no_model := "No suitable model available".

Definition latency_hierarchy : gmap string Z :=
  {[ "very_low" := 0%Z; "low" := 1%Z; "medium" := 2%Z; "high" := 3%Z ]}.

Definition _meets_latency_requirement (model_latency required_latency : string) : bool :=
  let model_level := Py.dict_get latency_hierarchy model_latency 3%Z in
  let required_level := Py.dict_get latency_hierarchy required_latency 3%Z in
  (model_level <=? required_level)%Z.

Section Methods.

(** [datetime.now()] and its ["%Y-%m"] rendering. *)
Variable now : timestamp.
Variable month : string.

Variable self : IntelligentRouter.

Definition _validate_model_capabilities (name : string)
    (required_capabilities : list string) : bool :=
  match required_capabilities with
  | [] => true
  | _ =>
      match Registry.get_model (model_registry self) name with
      | None => false
      | Some model =>
          if bool_decide (Registry.health_status model ≠ "healthy") then false
          else forallb (λ cap, bool_decide (cap ∈ Registry.capabilities model))
                       required_capabilities
      end
  end.

Definition _check_performance_requirements (name : string)
    (request : RoutingRequest) : bool :=
  match Registry.get_model (model_registry self) name with
  | None => false
  | Some model =>
      let perf := Registry.performance_metrics model in
      if match latency_requirement request with
         | Some required =>
             Py.str_truthy required
             && negb (_meets_latency_requirement (Registry.latency perf) required)
         | None => false
         end
      then false
      else if match context_length_estimate request with
              | Some estimate =>
                  Py.int_truthy estimate
                  && (estimate >? Registry.context_length perf)%Z
              | None => false
              end
      then false
      else true
  end.

Definition _check_budget_constraints (tenant : string)
    (policy : Policies.RoutingPolicy) (budget_override : option Q) : bool :=
  if negb (Policies.automatic_downshift (Policies.budget_constraints policy))
  then true
  else
    let current_budget :=
      Py.dict_get
        (Py.dict_get (Policies.budget_tracker (routing_policy_manager self)) tenant ∅)
        month 0%Q in
    let budget_limit :=
      Py.num_or budget_override
        (Policies.monthly_budget (Policies.budget_constraints policy)) in
    let threshold :=
      (budget_limit * Policies.cost_threshold (Policies.budget_constraints policy))%Q in
    Py.ltb current_budget threshold.

Definition _validate_user_override (name : string)
    (required_capabilities : list string) : bool :=
  _validate_model_capabilities name required_capabilities.

(** The last resort of both orderings: the budget fallback is returned as
    soon as it passes [_validate_model_capabilities]. *)
Definition try_budget_fallback (request : RoutingRequest)
    (policy : Policies.RoutingPolicy) : option string :=
  match Policies.budget_fallback (Policies.model_selection_rules policy) with
  | Some name =>
      if Py.str_truthy name
         && _validate_model_capabilities name (required_capabilities request)
      then Some name
      else None
  | None => None
  end.

Definition _select_quality_priority_model (request : RoutingRequest)
    (policy : Policies.RoutingPolicy) : option string :=
  let rules := Policies.model_selection_rules policy in
  if _validate_model_capabilities (Policies.primary rules) (required_capabilities request)
     && _check_performance_requirements (Policies.primary rules) request
  then Some (Policies.primary rules)
  else
    if match Policies.fallback rules with
       | Some name =>
           Py.str_truthy name
           && _validate_model_capabilities name (required_capabilities request)
           && _check_performance_requirements name request
       | None => false
       end
    then Policies.fallback rules
    else try_budget_fallback request policy.

Definition _select_cost_optimized_model (request : RoutingRequest)
    (policy : Policies.RoutingPolicy) : option string :=
  let rules := Policies.model_selection_rules policy in
  if match Policies.fallback rules with
     | Some name =>
         Py.str_truthy name
         && _validate_model_capabilities name (required_capabilities request)
         && _check_performance_requirements name request
     | None => false
     end
  then Policies.fallback rules
  else
    if _validate_model_capabilities (Policies.primary rules) (required_capabilities request)
       && _check_performance_requirements (Policies.primary rules) request
    then Some (Policies.primary rules)
    else try_budget_fallback request policy.

Definition _select_optimal_model (request : RoutingRequest)
    (policy : Policies.RoutingPolicy) : option string :=
  let rules := Policies.model_selection_rules policy in
  let by_preference :=
    let quality :=
      match quality_priority request with
      | Some b => b
      | None => Policies.quality_priority (Policies.feature_flags policy)
      end in
    if quality then _select_quality_priority_model request policy
    else _select_cost_optimized_model request policy in
  if negb (_check_budget_constraints (tenant_id request) policy (budget_override request))
  then
    match Policies.budget_fallback rules with
    | Some fallback_model =>
        if Py.str_truthy fallback_model
           && _validate_model_capabilities fallback_model (required_capabilities request)
        then Some fallback_model
        else by_preference
    | None => by_preference
    end
  else by_preference.

Definition _estimate_request_cost (name : string) (request : RoutingRequest) : Q :=
  let estimated_input_tokens := Py.int_or (context_length_estimate request) 1000%Z in
  let estimated_output_tokens := 500%Z in
  Registry.get_model_cost_estimate (model_registry self) name
    estimated_input_tokens estimated_output_tokens.

(** [model.performance_metrics.latency if model else "unknown"] *)
Definition latency_or_unknown (name : string) : string :=
  match Registry.get_model (model_registry self) name with
  | Some model => Registry.latency (Registry.performance_metrics model)
  | None => "unknown"
  end.

Definition _create_override_response (name : string) (request : RoutingRequest)
    : RoutingResponse :=
  {| selected_model := name;
     routing_reason := reason_user_override;
     fallback_used := false;
     budget_impact := _estimate_request_cost name request;
     estimated_latency := latency_or_unknown name;
     confidence_score := 1%Q |}.

Definition _create_routing_response (request : RoutingRequest) (selected : string)
    (policy : Policies.RoutingPolicy) : RoutingResponse :=
  let rules := Policies.model_selection_rules policy in
  let fallback_used := bool_decide (selected ≠ Policies.primary rules) in
  let routing_reason :=
    if fallback_used then
      if bool_decide (Some selected = Policies.budget_fallback rules)
      then reason_budget
      else reason_fallback
    else reason_primary in
  {| selected_model := selected;
     routing_reason := routing_reason;
     fallback_used := fallback_used;
     budget_impact := _estimate_request_cost selected request;
     estimated_latency := latency_or_unknown selected;
     confidence_score := if negb fallback_used then (9 # 10)%Q else (7 # 10)%Q |}.

Definition _create_error_response (error_message : string) : RoutingResponse :=
  {| selected_model := "";
     routing_reason := error_message;
     fallback_used := false;
     budget_impact := 0%Q;
     estimated_latency := "unknown";
     confidence_score := 0%Q |}.

Definition _update_usage_tracking (tenant name : string) : IntelligentRouter :=
  let per_tenant := default ∅ (usage_tracker self !! tenant) in
  let entry :=
    default {| total_requests := 0; last_used := None |} (per_tenant !! name) in
  let entry' :=
    {| total_requests := (total_requests entry + 1)%Z; last_used := Some now |} in
  {| model_registry := model_registry self;
     routing_policy_manager := routing_policy_manager self;
     usage_tracker := <[tenant := <[name := entry']> per_tenant]> (usage_tracker self) |}.

(** The policy [route_request] works with: the tenant's, else the default
    one of the feature. *)
Definition resolve_policy (request : RoutingRequest) : option Policies.RoutingPolicy :=
  match Policies.get_policy (routing_policy_manager self)
          (tenant_id request) (feature request) with
  | Some policy => Some policy
  | None => Policies.get_default_policy (routing_policy_manager self) (feature request)
  end.

(** [if request.user_override: if self._validate_user_override(...)] *)
Definition override_accepted (request : RoutingRequest) : option string :=
  match user_override request with
  | Some name =>
      if Py.str_truthy name
         && _validate_user_override name (required_capabilities request)
      then Some name
      else None
  | None => None
  end.

(** [route_request(request)]: the response and the router afterwards (only
    a policy-based selection updates [usage_tracker]). *)
Definition route_request (request : RoutingRequest)
    : RoutingResponse * IntelligentRouter :=
  match override_accepted request with
  | Some name => (_create_override_response name request, self)
  | None =>
      match resolve_policy request with
      | None => (_create_error_response reason_no_policy, self)
      | Some policy =>
          match _select_optimal_model request policy with
          | Some selected =>
              if Py.str_truthy selected
              then (_create_routing_response request selected policy,
                    _update_usage_tracking (tenant_id request) selected)
              else (_create_error_response reason_no_model, self)
          | None => (_create_error_response reason_no_model, self)
          end
      end
  end.

End Methods.

End Router.

(** ** azure_openai_client.py *)

Module Client.

Record ChatMessage := {
  role : string;
  content : string;
  name : option string
}.

Record ChatCompletionRequest := {
  messages : list ChatMessage;
  model : option string;
  temperature : Q;
  max_tokens : option Z;
  top_p : Q;
  frequency_penalty : Q;
  presence_penalty : Q;
  stop : option (list string);
  stream : bool
}.

Record ChatCompletionResponse := {
  chat_content : string;
  chat_model_used : string;
  chat_tokens_used : Z;
  chat_cost : Q;
  chat_latency_ms : Q;
  finish_reason : string
}.

Record EmbeddingRequest := {
  text : string;
  embedding_model : option string
}.

Record EmbeddingResponse := {
  embedding : list Q;
  model_used : string;
  tokens_used : Z;
  cost : Q;
  latency_ms : Q
}.

(** What the backend sends back, as far as the client reads it:
    [choices[0].message.content], [choices[0].finish_reason], [usage.*];
    [data[0].embedding], [usage.total_tokens]. *)
Record BackendChat := {
  message_content : string;
  choice_finish_reason : string;
  prompt_tokens : Z;
  completion_tokens : Z;
  total_tokens : Z
}.

Record BackendEmbedding := {
  data_embedding : list Q;
  embedding_total_tokens : Z
}.

Inductive exn :=
| ValueError (msg : string)
| BackendError (detail : string).

(** A call either returns or raises. *)
Inductive result (A : Type) :=
| Returned (a : A)
| Raised (e : exn).
Arguments Returned {A} a.
Arguments Raised {A} e.

(** [clients] maps a deployment name to its SDK handle; only the names
    matter here.  [model_registry] and [intelligent_router] of the Python
    object are the shared instances held by [intelligent_router]. *)
Record AzureOpenAIClient := {
  intelligent_router : Router.IntelligentRouter;
  clients : gset string
}.

Definition model_registry (self : AzureOpenAIClient) : Registry.ModelRegistry :=
  Router.model_registry (intelligent_router self).

Definition with_router (self : AzureOpenAIClient) (r : Router.IntelligentRouter)
    : AzureOpenAIClient :=
  {| intelligent_router := r; clients := clients self |}.

Definition with_registry (self : AzureOpenAIClient) (reg : Registry.ModelRegistry)
    : AzureOpenAIClient :=
  with_router self
    {| Router.model_registry := reg;
       Router.routing_policy_manager :=
         Router.routing_policy_manager (intelligent_router self);
       Router.usage_tracker := Router.usage_tracker (intelligent_router self) |}.

Definition with_policy_manager (self : AzureOpenAIClient)
    (pm : Policies.RoutingPolicyManager) : AzureOpenAIClient :=
  with_router self
    {| Router.model_registry := Router.model_registry (intelligent_router self);
       Router.routing_policy_manager := pm;
       Router.usage_tracker := Router.usage_tracker (intelligent_router self) |}.

Section Methods.

Variable now : timestamp.
Variable month : string.

(** [(time.time() - start_time) * 1000], as measured around the call. *)
Variable elapsed_ms : Q.

(** Library functions on text: [needle in s.lower()] and [len(s.split())]. *)
Variable lower_contains : string → string → bool.
Variable word_count : string → Z.

(** The remote service: given the deployment and the request, the call
    [client.chat.completions.create(...)] or [client.embeddings.create(...)]
    returns or raises. *)
Variable chat_backend : string → ChatCompletionRequest → result BackendChat.
Variable embedding_backend : string → EmbeddingRequest → result BackendEmbedding.

(** The methods that call the backend also return the list of deployments
    the backend was called with, in order. *)
Definition _execute_chat_completion (self : AzureOpenAIClient)
    (request : ChatCompletionRequest) (model_name : string)
    : result BackendChat * list string :=
  if bool_decide (model_name ∈ clients self)
  then (chat_backend model_name request, [model_name])
  else (Raised (ValueError ("No client available for model: " +:+ model_name)), []).

Definition _execute_embedding (self : AzureOpenAIClient)
    (request : EmbeddingRequest) (model_name : string)
    : result BackendEmbedding * list string :=
  if bool_decide (model_name ∈ clients self)
  then (embedding_backend model_name request, [model_name])
  else (Raised (ValueError ("No client available for model: " +:+ model_name)), []).

Definition _estimate_context_length (msgs : list ChatMessage) : Z :=
  foldl (λ total_length message,
           (total_length + (word_count (content message) + 10))%Z) 0%Z msgs.

Definition _calculate_chat_cost (self : AzureOpenAIClient) (model_name : string)
    (response : BackendChat) : Q :=
  match Registry.get_model (model_registry self) model_name with
  | None => 0%Q
  | Some m =>
      let input_cost :=
        (inject_Z (prompt_tokens response)
         * Registry.input (Registry.cost_per_token m))%Q in
      let output_cost :=
        (inject_Z (completion_tokens response)
         * Registry.output (Registry.cost_per_token m))%Q in
      (input_cost + output_cost)%Q
  end.

Definition _calculate_embedding_cost (self : AzureOpenAIClient) (model_name : string)
    (response : BackendEmbedding) : Q :=
  match Registry.get_model (model_registry self) model_name with
  | None => 0%Q
  | Some m =>
      (inject_Z (embedding_total_tokens response)
       * Registry.input (Registry.cost_per_token m))%Q
  end.

Definition _update_usage_tracking (self : AzureOpenAIClient)
    (tenant model_name : string) (amount : Q) : AzureOpenAIClient :=
  let self1 :=
    with_registry self (Registry.record_usage (model_registry self) model_name 1 0) in
  with_policy_manager self1
    (Policies.record_usage_cost month
       (Router.routing_policy_manager (intelligent_router self1)) tenant amount).

(** The [except Exception] handler of both entry points. *)
Definition mark_unhealthy (self : AzureOpenAIClient) (selected : string)
    : AzureOpenAIClient :=
  with_registry self
    (Registry.update_model_health now (model_registry self) selected "unhealthy" 1).

Definition chat_required_capabilities (request : ChatCompletionRequest) : list string :=
  (["chat"]
   ++ (if existsb (λ msg, lower_contains "vision" (content msg)) (messages request)
       then ["vision"] else [])
   ++ (if existsb (λ msg, lower_contains "tool" (content msg)) (messages request)
       then ["tools"] else []))%list.

Definition chat_completion (self : AzureOpenAIClient)
    (request : ChatCompletionRequest) (tenant feat : string)
    (override : option string)
    : result ChatCompletionResponse * AzureOpenAIClient * list string :=
  let routing_request :=
    {| Router.tenant_id := tenant;
       Router.feature := feat;
       Router.required_capabilities := chat_required_capabilities request;
       Router.quality_priority := None;
       Router.budget_override := None;
       Router.latency_requirement := None;
       Router.context_length_estimate :=
         Some (_estimate_context_length (messages request));
       Router.user_override := override |} in
  let '(routing_response, router') :=
    Router.route_request now month (intelligent_router self) routing_request in
  let self := with_router self router' in
  let selected := Router.selected_model routing_response in
  if negb (Py.str_truthy selected)
  then (Raised (ValueError ("Failed to route request: "
                            +:+ Router.routing_reason routing_response)),
        self, [])
  else
    match _execute_chat_completion self request selected with
    | (Returned response, called) =>
        let amount := _calculate_chat_cost self selected response in
        (Returned {| chat_content := message_content response;
                     chat_model_used := selected;
                     chat_tokens_used := total_tokens response;
                     chat_cost := amount;
                     chat_latency_ms := elapsed_ms;
                     finish_reason := choice_finish_reason response |},
         _update_usage_tracking self tenant selected amount,
         called)
    | (Raised e, called) => (Raised e, mark_unhealthy self selected, called)
    end.

Definition create_embedding (self : AzureOpenAIClient)
    (request : EmbeddingRequest) (tenant feat : string)
    (override : option string)
    : result EmbeddingResponse * AzureOpenAIClient * list string :=
  let routing_request :=
    {| Router.tenant_id := tenant;
       Router.feature := feat;
       Router.required_capabilities := ["embeddings"];
       Router.quality_priority := None;
       Router.budget_override := None;
       Router.latency_requirement := None;
       Router.context_length_estimate := Some (word_count (text request));
       Router.user_override := override |} in
  let '(routing_response, router') :=
    Router.route_request now month (intelligent_router self) routing_request in
  let self := with_router self router' in
  let selected := Router.selected_model routing_response in
  if negb (Py.str_truthy selected)
  then (Raised (ValueError ("Failed to route request: "
                            +:+ Router.routing_reason routing_response)),
        self, [])
  else
    match _execute_embedding self request selected with
    | (Returned response, called) =>
        let amount := _calculate_embedding_cost self selected response in
        (Returned {| embedding := data_embedding response;
                     model_used := selected;
                     tokens_used := embedding_total_tokens response;
                     cost := amount;
                     latency_ms := elapsed_ms |},
         _update_usage_tracking self tenant selected amount,
         called)
    | (Raised e, called) => (Raised e, mark_unhealthy self selected, called)
    end.

End Methods.

End Client.

(** * Definitions used to state the properties *)

(** ** The claims of the specification, in its own words *)

Module Spec.

(** "A deployment is usable for a request iff: it exists in the Directory,
    its health == healthy, and required_capabilities is a subset of
    deployment.capabilities." *)
Definition usable (directory : Registry.ModelRegistry) (name : string)
    (required : list string) : Prop :=
  ∃ m, Registry.get_model directory name = Some m
       ∧ Registry.health_status m = "healthy"
       ∧ ∀ cap, cap ∈ required → cap ∈ Registry.capabilities m.

(** "true iff auto_downshift is false, OR current-month spend <
    (overrideCeiling ?? policy.budget.monthly_ceiling) * downshift_threshold" *)
Definition under_budget (spend : Q) (policy : Policies.RoutingPolicy)
    (override_ceiling : option Q) : Prop :=
  Policies.automatic_downshift (Policies.budget_constraints policy) = false
  ∨ (spend < default (Policies.monthly_budget (Policies.budget_constraints policy))
                     override_ceiling
             * Policies.cost_threshold (Policies.budget_constraints policy))%Q.

(** The latency classes of the data model. *)
Definition latency_classes : list string := ["very_low"; "low"; "medium"; "high"].

End Spec.

(** ** The preference ordering as a search *)

Module Order.

(** A candidate of the chain: its name and whether the performance check
    ([_check_performance_requirements]) is applied to it. *)
Record candidate := {
  cand_name : string;
  cand_perf : bool
}.

(** An optional member of the chain is a candidate when it is set (not [None],
    not empty). *)
Definition optional (o : option string) (perf : bool) : list candidate :=
  match o with
  | Some name =>
      if Py.str_truthy name then [{| cand_name := name; cand_perf := perf |}] else []
  | None => []
  end.

(** Quality priority: primary, fallback, budget fallback. *)
Definition quality_order (rules : Policies.ModelSelectionRules) : list candidate :=
  [{| cand_name := Policies.primary rules; cand_perf := true |}]
  ++ optional (Policies.fallback rules) true
  ++ optional (Policies.budget_fallback rules) false.

(** Cost priority: fallback, primary, budget fallback. *)
Definition cost_order (rules : Policies.ModelSelectionRules) : list candidate :=
  optional (Policies.fallback rules) true
  ++ [{| cand_name := Policies.primary rules; cand_perf := true |}]
  ++ optional (Policies.budget_fallback rules) false.

Section Search.

Variable self : Router.IntelligentRouter.
Variable request : Router.RoutingRequest.

Definition passes (c : candidate) : bool :=
  Router._validate_model_capabilities self (cand_name c)
    (Router.required_capabilities request)
  && (if cand_perf c
      then Router._check_performance_requirements self (cand_name c) request
      else true).

(** The first candidate of the list that passes. *)
Fixpoint first_passing (cs : list candidate) : option string :=
  match cs with
  | [] => None
  | c :: rest => if passes c then Some (cand_name c) else first_passing rest
  end.

End Search.

End Order.

(** ** Readings of the router's state and requests *)

(** The level [latency_hierarchy.get(s, 3)] that the comparison gives a
    latency class. *)
Definition latency_level (s : string) : Z := Py.dict_get Router.latency_hierarchy s 3%Z.


(** The selection made under a policy, with the truthiness test of
    [if not selected_model] applied. *)
Definition selection (month : string) (self : Router.IntelligentRouter)
    (request : Router.RoutingRequest) (policy : Policies.RoutingPolicy) : option string :=
  match Router._select_optimal_model month self request policy with
  | Some selected => if Py.str_truthy selected then Some selected else None
  | None => None
  end.

(** ** A small deployment used in the examples

    The catalog and the policy of the specification's scenarios: three chat
    deployments and the chain gpt-4o / gpt-4o-mini / gpt-35-turbo with a
    ceiling of 100 and a downshift threshold of 0.8. *)

Module Scenario.

Definition deployment (name : string) (caps : list string) (lat : string)
    (ctx : Z) (health : string) (errors : Z) : Registry.ModelInfo :=
  {| Registry.deployment_name := name;
     Registry.endpoint := "https://example.openai.azure.com/";
     Registry.api_version := "2024-05-13";
     Registry.capabilities := caps;
     Registry.performance_metrics :=
       {| Registry.latency := lat; Registry.quality := "high";
          Registry.context_length := ctx |};
     Registry.tags := [];
     Registry.health_status := health;
     Registry.rate_limits :=
       {| Registry.requests_per_minute := 60; Registry.tokens_per_minute := 60000 |};
     Registry.cost_per_token :=
       {| Registry.input := (1 # 100000)%Q; Registry.output := (3 # 100000)%Q |};
     Registry.last_health_check := None;
     Registry.error_count := errors;
     Registry.total_requests := 0;
     Registry.total_tokens := 0 |}.

Definition gpt4o := deployment "gpt-4o" ["chat"; "vision"] "medium" 128000 "healthy" 0.
Definition mini := deployment "gpt-4o-mini" ["chat"] "low" 128000 "healthy" 0.
Definition turbo := deployment "gpt-35-turbo" ["chat"] "high" 16000 "healthy" 0.

Definition catalog : Registry.ModelRegistry :=
  {| Registry.models :=
       {[ "gpt-4o" := gpt4o; "gpt-4o-mini" := mini; "gpt-35-turbo" := turbo ]};
     Registry.last_config_load := Some 0%Z |}.

Definition chain : Policies.ModelSelectionRules :=
  {| Policies.primary := "gpt-4o";
     Policies.fallback := Some "gpt-4o-mini";
     Policies.budget_fallback := Some "gpt-35-turbo" |}.

Definition policy_with (rules : Policies.ModelSelectionRules) (downshift : bool)
    : Policies.RoutingPolicy :=
  {| Policies.tenant_id := "default";
     Policies.feature := "chat";
     Policies.model_selection_rules := rules;
     Policies.budget_constraints :=
       {| Policies.monthly_budget := 100%Q;
          Policies.cost_threshold := (4 # 5)%Q;
          Policies.automatic_downshift := downshift |};
     Policies.feature_flags :=
       {| Policies.a_b_testing := false; Policies.quality_priority := true |};
     Policies.created_at := 0%Z;
     Policies.updated_at := 0%Z |}.

Definition policy := policy_with chain true.

Definition month := "2026-11".

(** The policy store with [spend] recorded for tenant "default" this month. *)
Definition store (p : Policies.RoutingPolicy) (spend : Q) : Policies.RoutingPolicyManager :=
  {| Policies.policies := {[ "default:chat" := p ]};
     Policies.budget_tracker := {[ "default" := {[ month := spend ]} ]} |}.

Definition router (reg : Registry.ModelRegistry) (p : Policies.RoutingPolicy)
    (spend : Q) : Router.IntelligentRouter :=
  {| Router.model_registry := reg;
     Router.routing_policy_manager := store p spend;
     Router.usage_tracker := ∅ |}.

Definition request (caps : list string) : Router.RoutingRequest :=
  {| Router.tenant_id := "default";
     Router.feature := "chat";
     Router.required_capabilities := caps;
     Router.quality_priority := None;
     Router.budget_override := None;
     Router.latency_requirement := None;
     Router.context_length_estimate := None;
     Router.user_override := None |}.

End Scenario.

(** ** A configuration file with malformed entries *)

Module BadSource.

(** A catalog entry for an embedding deployment, complete. *)
Definition embedding_entry : Json.json :=
  Json.JDict
    [("deployment_name", Json.JStr "text-embedding-3-small");
     ("endpoint", Json.JStr "$AZURE_OPENAI_ENDPOINT");
     ("api_version", Json.JStr "2024-05-13");
     ("capabilities", Json.JList [Json.JStr "embeddings"]);
     ("performance_metrics",
      Json.JDict [("latency", Json.JStr "very_low");
                  ("quality", Json.JStr "medium");
                  ("context_length", Json.JInt 8191)]);
     ("tags", Json.JList [Json.JStr "embedding"]);
     ("health_status", Json.JStr "healthy");
     ("rate_limits",
      Json.JDict [("requests_per_minute", Json.JInt 1000);
                  ("tokens_per_minute", Json.JInt 1000000)]);
     ("cost_per_token",
      Json.JDict [("input", Json.JReal (1 # 50000)); ("output", Json.JInt 0)])].

(** An entry for gpt-4o that lacks the key "endpoint":
    [model_data['endpoint']] raises [KeyError]. *)
Definition incomplete_entry : Json.json :=
  Json.JDict
    [("deployment_name", Json.JStr "gpt-4o");
     ("api_version", Json.JStr "2024-05-13");
     ("capabilities", Json.JList [Json.JStr "chat"; Json.JStr "vision"]);
     ("performance_metrics",
      Json.JDict [("latency", Json.JStr "medium");
                  ("quality", Json.JStr "high");
                  ("context_length", Json.JInt 128000)]);
     ("tags", Json.JList []);
     ("health_status", Json.JStr "healthy");
     ("rate_limits",
      Json.JDict [("requests_per_minute", Json.JInt 60);
                  ("tokens_per_minute", Json.JInt 60000)]);
     ("cost_per_token",
      Json.JDict [("input", Json.JReal (1 # 100000)); ("output", Json.JReal (3 # 100000))])].

(** A policy entry without "model_selection_rules". *)
Definition incomplete_policy : Json.json :=
  Json.JDict
    [("tenant_id", Json.JStr "default");
     ("feature", Json.JStr "chat");
     ("budget_constraints",
      Json.JDict [("monthly_budget", Json.JInt 100);
                  ("cost_threshold", Json.JReal (4 # 5))]);
     ("feature_flags", Json.JDict [])].

(** A file that decodes, with a malformed second deployment and a malformed
    policy. *)
Definition config : Json.json :=
  Json.JDict
    [("models", Json.JList [embedding_entry; incomplete_entry]);
     ("routing_policies", Json.JList [incomplete_policy])].

End BadSource.

(** ** A backend that is down *)

Module Outage.

(** The catalog of the scenarios plus an embedding deployment, all healthy
    with no error on record; the backend is down. *)
Definition catalog : Registry.ModelRegistry :=
  {| Registry.models :=
       <["text-embedding-3-small" :=
           Scenario.deployment "text-embedding-3-small" ["embeddings"] "very_low" 8191
             "healthy" 0]> (Registry.models Scenario.catalog);
     Registry.last_config_load := Some 0%Z |}.

Definition embed_rules : Policies.ModelSelectionRules :=
  {| Policies.primary := "text-embedding-3-small";
     Policies.fallback := None;
     Policies.budget_fallback := None |}.

Definition client : Client.AzureOpenAIClient :=
  {| Client.intelligent_router :=
       {| Router.model_registry := catalog;
          Router.routing_policy_manager :=
            {| Policies.policies :=
                 {[ "default:chat" := Scenario.policy;
                    "default:embed" := Scenario.policy_with embed_rules true ]};
               Policies.budget_tracker := ∅ |};
          Router.usage_tracker := ∅ |};
     Client.clients :=
       {[ "gpt-4o"; "gpt-4o-mini"; "gpt-35-turbo"; "text-embedding-3-small" ]} |}.

Definition hello : Client.ChatCompletionRequest :=
  {| Client.messages :=
       [{| Client.role := "user"; Client.content := "Hello"; Client.name := None |}];
     Client.model := None;
     Client.temperature := (7 # 10)%Q;
     Client.max_tokens := None;
     Client.top_p := 1%Q;
     Client.frequency_penalty := 0%Q;
     Client.presence_penalty := 0%Q;
     Client.stop := None;
     Client.stream := false |}.

Definition sentence : Client.EmbeddingRequest :=
  {| Client.text := "Hello"; Client.embedding_model := None |}.

(** "Hello" mentions neither "vision" nor "tool" and is one word long. *)
Definition lower_contains (needle s : string) : bool := false.
Definition word_count (s : string) : Z := 1%Z.

Definition chat_down (deployment : string) (request : Client.ChatCompletionRequest)
    : Client.result Client.BackendChat :=
  Client.Raised (Client.BackendError "connection refused").

Definition embedding_down (deployment : string) (request : Client.EmbeddingRequest)
    : Client.result Client.BackendEmbedding :=
  Client.Raised (Client.BackendError "connection refused").

Definition chat (now : timestamp) (self : Client.AzureOpenAIClient) :=
  Client.chat_completion now Scenario.month 0%Q lower_contains word_count chat_down
    self hello "default" "chat" None.

Definition embed (now : timestamp) (self : Client.AzureOpenAIClient) :=
  Client.create_embedding now Scenario.month 0%Q word_count embedding_down
    self sentence "default" "embed" None.

Definition error_count_of (self : Client.AzureOpenAIClient) (deployment : string)
    : option Z :=
  Registry.error_count <$> Registry.get_model (Client.model_registry self) deployment.

Definition health_of (self : Client.AzureOpenAIClient) (deployment : string)
    : option string :=
  Registry.health_status <$> Registry.get_model (Client.model_registry self) deployment.

(** A health probe finds the deployment up again and reports it healthy,
    passing on the error count on record:
    [update_model_health(deployment, "healthy", error_count)]. *)
Definition recover (now : timestamp) (self : Client.AzureOpenAIClient)
    (deployment : string) : Client.AzureOpenAIClient :=
  Client.with_registry self
    (Registry.update_model_health now (Client.model_registry self) deployment "healthy"
       (default 0%Z (error_count_of self deployment))).

End Outage.

(** * More of the four modules *)

(** ** model_registry.py: the scans and the summary

    The scans walk [self.models.values()].  The order of a Python dict is its
    insertion order; [values] lists the same entries in the order of the
    finite map, and the properties below do not depend on the order. *)

Module Catalog.

Definition values (r : Registry.ModelRegistry) : list Registry.ModelInfo :=
  (map_to_list (Registry.models r)).*2.

Definition get_models_by_capability (r : Registry.ModelRegistry) (capability : string)
    : list Registry.ModelInfo :=
  filter (λ model, capability ∈ Registry.capabilities model) (values r).

Definition get_models_by_tag (r : Registry.ModelRegistry) (tag : string)
    : list Registry.ModelInfo :=
  filter (λ model, tag ∈ Registry.tags model) (values r).

Definition get_healthy_models (r : Registry.ModelRegistry) : list Registry.ModelInfo :=
  filter (λ model, Registry.health_status model = "healthy") (values r).

(** The union of the capability lists of all entries, as a set. *)
Definition all_capabilities (r : Registry.ModelRegistry) : gset string :=
  ⋃ ((λ model, list_to_set (Registry.capabilities model)) <$> values r).

(** The dict returned by [get_registry_summary]; ["last_updated"] holds the
    timestamp itself instead of its ISO rendering. *)
Record RegistrySummary := {
  total_models : nat;
  healthy_models : nat;
  models_by_capability : gmap string nat;
  last_updated : option timestamp
}.

Definition get_registry_summary (r : Registry.ModelRegistry) : RegistrySummary :=
  {| total_models := size (Registry.models r);
     healthy_models := length (get_healthy_models r);
     models_by_capability :=
       set_to_map (λ capability, (capability, length (get_models_by_capability r capability)))
         (all_capabilities r);
     last_updated := Registry.last_config_load r |}.

End Catalog.

(** ** routing_policies.py: [select_model] and [get_budget_status] *)

Module PolicyQueries.

(** [select_model] has [required_capabilities: List[str] = None]; [None] is
    falsy, so the validation guard returns [True] for it. *)
Definition validate_optional (registry : Registry.ModelRegistry) (name : string)
    (required_capabilities : option (list string)) : bool :=
  match required_capabilities with
  | None => true
  | Some required => Policies._validate_model_capabilities registry name required
  end.

Definition select_model (month : string) (registry : Registry.ModelRegistry)
    (self : Policies.RoutingPolicyManager) (tenant feat : string)
    (required_capabilities : option (list string)) (quality_priority : option bool)
    (budget_override : option Q) : option string :=
  match
    match Policies.get_policy self tenant feat with
    | Some policy => Some policy
    | None => Policies.get_default_policy self feat
    end
  with
  | None => None
  | Some policy =>
      let rules := Policies.model_selection_rules policy in
      let by_priority :=
        let quality :=
          match quality_priority with
          | Some b => b
          | None => Policies.quality_priority (Policies.feature_flags policy)
          end in
        let fallback_ok :=
          match Policies.fallback rules with
          | Some name =>
              Py.str_truthy name && validate_optional registry name required_capabilities
          | None => false
          end in
        if quality then
          if validate_optional registry (Policies.primary rules) required_capabilities
          then Some (Policies.primary rules)
          else if fallback_ok then Policies.fallback rules else None
        else
          if fallback_ok then Policies.fallback rules
          else if validate_optional registry (Policies.primary rules) required_capabilities
               then Some (Policies.primary rules)
               else None in
      if negb (Policies._check_budget_constraints month self tenant policy budget_override)
      then
        match Policies.budget_fallback rules with
        | Some fallback_model =>
            if Py.str_truthy fallback_model
               && validate_optional registry fallback_model required_capabilities
            then Some fallback_model
            else by_priority
        | None => by_priority
        end
      else by_priority
  end.

(** The dict returned by [get_budget_status]. *)
Record BudgetStatus := {
  tenant_id : string;
  current_month : string;
  current_spend : Q;
  total_monthly_budget : Q;
  remaining_budget : Q;
  utilization_percentage : Q
}.

(** [[p for p in self.policies.values() if p.tenant_id == tenant_id]] *)
Definition tenant_policies (self : Policies.RoutingPolicyManager) (tenant : string)
    : list Policies.RoutingPolicy :=
  filter (λ p, Policies.tenant_id p = tenant) (map_to_list (Policies.policies self)).*2.

(** [sum(...)] starts from 0 and adds from the left. *)
Definition sum_budgets (ps : list Policies.RoutingPolicy) : Q :=
  foldl (λ acc p, (acc + Policies.monthly_budget (Policies.budget_constraints p))%Q) 0%Q ps.

Definition get_budget_status (month : string) (self : Policies.RoutingPolicyManager)
    (tenant : string) : BudgetStatus :=
  let current_budget := Policies.current_spend self tenant month in
  let total := sum_budgets (tenant_policies self tenant) in
  {| tenant_id := tenant;
     current_month := month;
     current_spend := current_budget;
     total_monthly_budget := total;
     remaining_budget := (total - current_budget)%Q;
     utilization_percentage :=
       if Py.ltb 0 total then (current_budget / total * 100)%Q else 0%Q |}.

End PolicyQueries.

(** ** intelligent_router.py: [get_routing_analytics] *)

Module Analytics.

(** The dict returned by [get_routing_analytics]. *)
Record RoutingAnalytics := {
  total_requests : Z;
  models_used : gmap string Z;
  fallback_usage : Z;
  budget_impacts : list Q
}.

(** [sum(model["total_requests"] for model in tenant_usage.values())] *)
Definition sum_requests (tenant_usage : gmap string Router.UsageEntry) : Z :=
  map_fold (λ _ entry acc, (acc + Router.total_requests entry)%Z) 0%Z tenant_usage.

(** One round of the loop over all tenants: the total grows by the tenant's
    sum and each of its deployments is added to [models_used], starting from 0
    when it is not there yet. *)
Definition add_tenant (tenant_data : gmap string Router.UsageEntry)
    (acc : Z * gmap string Z) : Z * gmap string Z :=
  ((acc.1 + sum_requests tenant_data)%Z,
   union_with (λ counted count, Some (counted + count)%Z)
     acc.2 (Router.total_requests <$> tenant_data)).

Definition get_routing_analytics (self : Router.IntelligentRouter)
    (tenant : option string) : RoutingAnalytics :=
  if Py.opt_str_truthy tenant then
    let tenant_usage := Py.dict_get (Router.usage_tracker self) (default "" tenant) ∅ in
    {| total_requests := sum_requests tenant_usage;
       models_used := Router.total_requests <$> tenant_usage;
       fallback_usage := 0;
       budget_impacts := [] |}
  else
    let '(total, used) :=
      map_fold (λ _ tenant_data acc, add_tenant tenant_data acc) (0%Z, ∅)
        (Router.usage_tracker self) in
    {| total_requests := total;
       models_used := used;
       fallback_usage := 0;
       budget_impacts := [] |}.

End Analytics.

(** ** azure_openai_client.py: setting up the SDK clients *)

Module ClientSetup.

Section Setup.

(** [os.environ]. *)
Variable environ : gmap string string.

(** [SecretClient(vault).get_secret(name).value]: [None] when the call raises
    (the handler logs and the function returns [None]) or the value is
    [None]. *)
Variable get_secret : string → string → option string.

(** Whether [AzureOpenAI(azure_endpoint, api_key, api_version)] returns a
    client or raises; the arguments are the same for every deployment. *)
Variable sdk_client : string → string → bool.

Definition getenv (name : string) : option string := environ !! name.

(** The shared shape of [_get_openai_endpoint] and [_get_openai_api_key]. *)
Definition from_env_or_vault (variable secret : string) : option string :=
  if Py.opt_str_truthy (getenv variable) then getenv variable
  else
    match getenv "AZURE_KEY_VAULT_NAME" with
    | Some key_vault_name =>
        if Py.str_truthy key_vault_name then get_secret key_vault_name secret else None
    | None => None
    end.

Definition _get_openai_endpoint : option string :=
  from_env_or_vault "AZURE_OPENAI_ENDPOINT" "OpenAI-Endpoint".

Definition _get_openai_api_key : option string :=
  from_env_or_vault "AZURE_OPENAI_API_KEY" "OpenAI-API-Key".

Definition _initialize_clients (self : Client.AzureOpenAIClient) : Client.AzureOpenAIClient :=
  match _get_openai_endpoint, _get_openai_api_key with
  | Some endpoint, Some api_key =>
      if Py.str_truthy endpoint && Py.str_truthy api_key then
        if sdk_client endpoint api_key then
          {| Client.intelligent_router := Client.intelligent_router self;
             Client.clients :=
               Client.clients self ∪ dom (Registry.models (Client.model_registry self)) |}
        else self
      else self
  | _, _ => self
  end.

Definition refresh_clients := _initialize_clients.

End Setup.

(** [get_available_models()] lists the keys of [clients]. *)
Definition get_available_models (self : Client.AzureOpenAIClient) : list string :=
  elements (Client.clients self).

(** [get_model_health(model_name)]: [None] stands for [{"status": "not_found"}]. *)
Record ModelHealth := {
  deployment_name : string;
  health_status : string;
  last_health_check : option timestamp;
  error_count : Z;
  total_requests : Z;
  total_tokens : Z
}.

Definition get_model_health (self : Client.AzureOpenAIClient) (model_name : string)
    : option ModelHealth :=
  match Registry.get_model (Client.model_registry self) model_name with
  | None => None
  | Some model =>
      Some {| deployment_name := Registry.deployment_name model;
              health_status := Registry.health_status model;
              last_health_check := Registry.last_health_check model;
              error_count := Registry.error_count model;
              total_requests := Registry.total_requests model;
              total_tokens := Registry.total_tokens model |}
  end.

End ClientSetup.

(** ** Files within the typed model

    The dataclasses accept a value of any type for a field, while the readers
    of [Json] accept the annotated type only.  A decoded file is well typed
    when every field the loaders read, where it is given, holds a value of
    its annotated type (a JSON integer is taken where a [float] is
    annotated).  On such a file a reader fails only where the code raises:
    a missing key, a keyword the dataclass does not have, an entry or a
    group of fields that is not a dict.  On a file that is not well typed
    the code goes on with the value as it is, which the records of the
    embedding cannot hold: such files are outside the embedding, and the
    properties of the loaders are stated for well-typed files. *)

Module Typed.

Definition reads {A} (rd : Json.json → option A) (v : Json.json) : bool :=
  match rd v with
  | Some _ => true
  | None => false
  end.

(** The field [k], where given, has the type read by [ty]. *)
Definition field (ty : Json.json → bool) (k : string)
    (items : list (string * Json.json)) : bool :=
  match Json.getitem k items with
  | Some v => ty v
  | None => true
  end.

(** A group of fields; what is not a dict has no field to type (the code
    raises on it). *)
Definition fields (ty : list (string * Json.json) → bool) (v : Json.json) : bool :=
  match v with
  | Json.JDict items => ty items
  | _ => true
  end.

(** The annotations of [ModelInfo], [PerformanceMetrics], [RateLimits] and
    [CostPerToken]. *)
Definition model_entry : Json.json → bool :=
  fields (λ items,
    field (reads Json.as_str) "deployment_name" items
    && field (reads Json.as_str) "endpoint" items
    && field (reads Json.as_str) "api_version" items
    && field (reads Json.as_str_list) "capabilities" items
    && field (fields (λ metrics,
         field (reads Json.as_str) "latency" metrics
         && field (reads Json.as_str) "quality" metrics
         && field (reads Json.as_int) "context_length" metrics))
         "performance_metrics" items
    && field (reads Json.as_str_list) "tags" items
    && field (reads Json.as_str) "health_status" items
    && field (fields (λ limits,
         field (reads Json.as_int) "requests_per_minute" limits
         && field (reads Json.as_int) "tokens_per_minute" limits))
         "rate_limits" items
    && field (fields (λ cost,
         field (reads Json.as_num) "input" cost
         && field (reads Json.as_num) "output" cost))
         "cost_per_token" items).

(** The annotations of [RoutingPolicy], [ModelSelectionRules],
    [BudgetConstraints] and [FeatureFlags]. *)
Definition policy_entry : Json.json → bool :=
  fields (λ items,
    field (reads Json.as_str) "tenant_id" items
    && field (reads Json.as_str) "feature" items
    && field (fields (λ rules,
         field (reads Json.as_str) "primary" rules
         && field (reads Json.as_opt_str) "fallback" rules
         && field (reads Json.as_opt_str) "budget_fallback" rules))
         "model_selection_rules" items
    && field (fields (λ budget,
         field (reads Json.as_num) "monthly_budget" budget
         && field (reads Json.as_num) "cost_threshold" budget
         && field (reads Json.as_bool) "automatic_downshift" budget))
         "budget_constraints" items
    && field (fields (λ flags,
         field (reads Json.as_bool) "a_b_testing" flags
         && field (reads Json.as_bool) "quality_priority" flags))
         "feature_flags" items).

(** The entries a loader iterates over: [config.get(key, [])]. *)
Definition entries (config : Json.json) (key : string) : list Json.json :=
  default [] (Json.get config key (Json.JList []) ≫= Json.iter).

Definition models (config : Json.json) : bool :=
  forallb model_entry (entries config "models").

Definition routing_policies (config : Json.json) : bool :=
  forallb policy_entry (entries config "routing_policies").

Definition models_file (file : Json.config_file) : bool :=
  match file with
  | Json.Contents config => models config
  | _ => true
  end.

End Typed.

(** ** A configuration file that loads *)

Module GoodSource.

Definition acme_policy : Json.json :=
  Json.JDict
    [("tenant_id", Json.JStr "acme");
     ("feature", Json.JStr "qa");
     ("model_selection_rules", Json.JDict [("primary", Json.JStr "gpt-4o")]);
     ("budget_constraints",
      Json.JDict [("monthly_budget", Json.JInt 50);
                  ("cost_threshold", Json.JReal (1 # 2))]);
     ("feature_flags", Json.JDict [])].

Definition config : Json.json :=
  Json.JDict
    [("models", Json.JList [BadSource.embedding_entry]);
     ("routing_policies", Json.JList [acme_policy])].

End GoodSource.

(** ** The cost estimate with the conversion of the token count

    [get_model_cost_estimate] multiplies an [int] token count by a [float]
    price.  Python converts the [int] to a [float] first, rounding to
    nearest with ties to even, and raises [OverflowError] (int too large to
    convert to float) when the result is beyond the largest float, which is
    the case from [2^1024 - 2^970] on.  [Registry.get_model_cost_estimate]
    takes the product in [Q].  The definitions below follow the same code
    with the conversion written out, [None] standing for the
    [OverflowError]; nothing in [route_request] catches it. *)

Module Checked.

(** The first [int] that does not convert to a [float]. *)
Definition float_limit : Z := (2 ^ 1024 - 2 ^ 970)%Z.

Definition converts (n : Z) : bool := (Z.abs n <? float_limit)%Z.

(** [float(n)] *)
Definition int_to_float (n : Z) : option Q :=
  if converts n then Some (inject_Z n) else None.

Definition get_model_cost_estimate (r : Registry.ModelRegistry) (name : string)
    (input_tokens output_tokens : Z) : option Q :=
  match Registry.get_model r name with
  | Some m =>
      i ← int_to_float input_tokens;
      let input_cost := (i * Registry.input (Registry.cost_per_token m))%Q in
      o ← int_to_float output_tokens;
      let output_cost := (o * Registry.output (Registry.cost_per_token m))%Q in
      Some (input_cost + output_cost)%Q
  | None => Some 0%Q
  end.

Section Methods.

Variable now : timestamp.
Variable month : string.
Variable self : Router.IntelligentRouter.

Definition _estimate_request_cost (name : string) (request : Router.RoutingRequest)
    : option Q :=
  let estimated_input_tokens :=
    Py.int_or (Router.context_length_estimate request) 1000%Z in
  let estimated_output_tokens := 500%Z in
  get_model_cost_estimate (Router.model_registry self) name
    estimated_input_tokens estimated_output_tokens.

Definition _create_override_response (name : string) (request : Router.RoutingRequest)
    : option Router.RoutingResponse :=
  estimated_cost ← _estimate_request_cost name request;
  Some {| Router.selected_model := name;
          Router.routing_reason := Router.reason_user_override;
          Router.fallback_used := false;
          Router.budget_impact := estimated_cost;
          Router.estimated_latency := Router.latency_or_unknown self name;
          Router.confidence_score := 1%Q |}.

Definition _create_routing_response (request : Router.RoutingRequest)
    (selected : string) (policy : Policies.RoutingPolicy)
    : option Router.RoutingResponse :=
  estimated_cost ← _estimate_request_cost selected request;
  let rules := Policies.model_selection_rules policy in
  let fallback_used := bool_decide (selected ≠ Policies.primary rules) in
  let routing_reason :=
    if fallback_used then
      if bool_decide (Some selected = Policies.budget_fallback rules)
      then Router.reason_budget
      else Router.reason_fallback
    else Router.reason_primary in
  Some {| Router.selected_model := selected;
          Router.routing_reason := routing_reason;
          Router.fallback_used := fallback_used;
          Router.budget_impact := estimated_cost;
          Router.estimated_latency := Router.latency_or_unknown self selected;
          Router.confidence_score :=
            if negb fallback_used then (9 # 10)%Q else (7 # 10)%Q |}.

(** [route_request(request)]: [None] when the call raises; the response is
    built before the usage tracker is written, so a raise leaves the router
    as it was. *)
Definition route_request (request : Router.RoutingRequest)
    : option Router.RoutingResponse * Router.IntelligentRouter :=
  match Router.override_accepted self request with
  | Some name => (_create_override_response name request, self)
  | None =>
      match Router.resolve_policy self request with
      | None => (Some (Router._create_error_response Router.reason_no_policy), self)
      | Some policy =>
          match Router._select_optimal_model month self request policy with
          | Some selected =>
              if Py.str_truthy selected
              then
                match _create_routing_response request selected policy with
                | Some response =>
                    (Some response,
                     Router._update_usage_tracking now self (Router.tenant_id request)
                       selected)
                | None => (None, self)
                end
              else (Some (Router._create_error_response Router.reason_no_model), self)
          | None => (Some (Router._create_error_response Router.reason_no_model), self)
          end
      end
  end.

End Methods.

End Checked.

(** ** Requests at the edges *)

Module Edge.



End Edge.

(** ** Invariants and readings used by the further properties *)

Module Inv.

(** Every entry of the catalog is stored under its own deployment name. *)
Definition keyed (r : Registry.ModelRegistry) : Prop :=
  ∀ name model, Registry.models r !! name = Some model →
    Registry.deployment_name model = name.

(** An entry as [_create_model_info] builds it: no health check yet, no
    error and no usage on record. *)
Definition fresh (model : Registry.ModelInfo) : Prop :=
  Registry.last_health_check model = None
  ∧ Registry.error_count model = 0%Z
  ∧ Registry.total_requests model = 0%Z
  ∧ Registry.total_tokens model = 0%Z.

(** A sequence of spend reports for one tenant. *)
Definition record_all (month : string) (mgr : Policies.RoutingPolicyManager)
    (tenant : string) (amounts : list Q) : Policies.RoutingPolicyManager :=
  foldl (λ m amount, Policies.record_usage_cost month m tenant amount) mgr amounts.

(** The ledger entry after the amounts are added to it one by one, in the
    order of the reports: [((before + a1) + a2) + ...]. *)
Definition running_total (before : Q) (amounts : list Q) : Q :=
  foldl Qplus before amounts.

(** The string has no colon. *)
Fixpoint no_colon (s : string) : bool :=
  match s with
  | EmptyString => true
  | String c rest => negb (Ascii.eqb c ":"%char) && no_colon rest
  end.

(** Every policy is stored under the key made of its own tenant and feature. *)
Definition keyed_policies (mgr : Policies.RoutingPolicyManager) : Prop :=
  ∀ key policy, Policies.policies mgr !! key = Some policy →
    key = Policies.policy_key (Policies.tenant_id policy) (Policies.feature policy).

(** The router with another usage tracker and the same catalog and policy
    manager. *)
Definition with_tracker (self : Router.IntelligentRouter)
    (tracker : gmap string (gmap string Router.UsageEntry)) : Router.IntelligentRouter :=
  {| Router.model_registry := Router.model_registry self;
     Router.routing_policy_manager := Router.routing_policy_manager self;
     Router.usage_tracker := tracker |}.

(** The requests counted for a deployment under a tenant, 0 when there is no
    entry. *)
Definition counted (self : Router.IntelligentRouter) (tenant name : string) : Z :=
  match Router.usage_tracker self !! tenant ≫= (.!! name) with
  | Some entry => Router.total_requests entry
  | None => 0%Z
  end.

(** The routing requests the client builds in [chat_completion] and
    [create_embedding]. *)
Definition chat_routing_request (lower_contains : string → string → bool)
    (word_count : string → Z) (request : Client.ChatCompletionRequest)
    (tenant feat : string) (override : option string) : Router.RoutingRequest :=
  {| Router.tenant_id := tenant;
     Router.feature := feat;
     Router.required_capabilities := Client.chat_required_capabilities lower_contains request;
     Router.quality_priority := None;
     Router.budget_override := None;
     Router.latency_requirement := None;
     Router.context_length_estimate :=
       Some (Client._estimate_context_length word_count (Client.messages request));
     Router.user_override := override |}.

Definition embedding_routing_request (word_count : string → Z)
    (request : Client.EmbeddingRequest) (tenant feat : string) (override : option string)
    : Router.RoutingRequest :=
  {| Router.tenant_id := tenant;
     Router.feature := feat;
     Router.required_capabilities := ["embeddings"];
     Router.quality_priority := None;
     Router.budget_override := None;
     Router.latency_requirement := None;
     Router.context_length_estimate := Some (word_count (Client.text request));
     Router.user_override := override |}.

(** The policy manager the client works with. *)
Definition policy_manager (self : Client.AzureOpenAIClient) : Policies.RoutingPolicyManager :=
  Router.routing_policy_manager (Client.intelligent_router self).

End Inv.

(** ** A backend that answers, and a process environment *)

Module Online.

Definition answer : Client.BackendChat :=
  {| Client.message_content := "Hi";
     Client.choice_finish_reason := "stop";
     Client.prompt_tokens := 8%Z;
     Client.completion_tokens := 2%Z;
     Client.total_tokens := 10%Z |}.

Definition chat_up (deployment : string) (request : Client.ChatCompletionRequest)
    : Client.result Client.BackendChat :=
  Client.Returned answer.

Definition vector : Client.BackendEmbedding :=
  {| Client.data_embedding := [(1 # 2)%Q; (1 # 4)%Q];
     Client.embedding_total_tokens := 1%Z |}.

Definition embedding_up (deployment : string) (request : Client.EmbeddingRequest)
    : Client.result Client.BackendEmbedding :=
  Client.Returned vector.

(** The client before any SDK client was built. *)
Definition unconfigured : Client.AzureOpenAIClient :=
  {| Client.intelligent_router := Client.intelligent_router Outage.client;
     Client.clients := ∅ |}.

Definition environ : gmap string string :=
  {[ "AZURE_OPENAI_ENDPOINT" := "https://example.openai.azure.com/";
     "AZURE_OPENAI_API_KEY" := "secret" ]}.

Definition no_vault (vault secret : string) : option string := None.

Definition sdk_ok (endpoint api_key : string) : bool := true.

End Online.

(** * Properties *)

(** ** Arithmetic of the number model *)

Lemma ltb_lt (a b : Q) : Py.ltb a b = true ↔ (a < b)%Q.
Proof.
  unfold Py.ltb. rewrite negb_true_iff. split.
  - intros Hle. apply Qnot_le_lt. intros Hba.
    apply Qle_bool_iff in Hba. congruence.
  - intros Hlt. destruct (Qle_bool b a) eqn:Hle; [|done].
    apply Qle_bool_iff in Hle. exfalso. exact (Qlt_not_le _ _ Hlt Hle).
Qed.

Lemma num_or_supplied (q d : Q) : ¬ (q == 0)%Q → Py.num_or (Some q) d = q.
Proof.
  intros Hq. unfold Py.num_or, Py.num_truthy.
  destruct (Qeq_bool q 0) eqn:Heq; [|done].
  apply Qeq_bool_iff in Heq. contradiction.
Qed.

Lemma num_or_zero (q d : Q) : (q == 0)%Q → Py.num_or (Some q) d = d.
Proof.
  intros Hq. unfold Py.num_or, Py.num_truthy.
  apply Qeq_bool_iff in Hq. by rewrite Hq.
Qed.

(** ** Capability validation *)

Lemma validate_same (self : Router.IntelligentRouter) name required :
  Router._validate_model_capabilities self name required
  = Policies._validate_model_capabilities (Router.model_registry self) name required.
Proof. reflexivity. Qed.

Lemma covers_all (caps required : list string) :
  forallb (λ cap, bool_decide (cap ∈ caps)) required = true
  ↔ ∀ cap, cap ∈ required → cap ∈ caps.
Proof.
  rewrite forallb_forall. split.
  - intros H cap Hin. apply list_elem_of_In in Hin.
    exact (bool_decide_eq_true_1 _ (H cap Hin)).
  - intros H cap Hin. apply bool_decide_eq_true_2, H. by apply list_elem_of_In.
Qed.

Lemma validate_required (registry : Registry.ModelRegistry) name cap rest :
  Policies._validate_model_capabilities registry name (cap :: rest) = true
  ↔ Spec.usable registry name (cap :: rest).
Proof.
  unfold Policies._validate_model_capabilities, Spec.usable.
  destruct (Registry.get_model registry name) as [m|] eqn:Hget.
  - case_bool_decide as Hh.
    + split; [done|]. intros (m' & Hm' & Hhealthy & _). by simplify_eq.
    + rewrite covers_all. split.
      * intros Hall. exists m. split_and!; [done| |done].
        destruct (decide (Registry.health_status m = "healthy")); [done|contradiction].
      * intros (m' & Hm' & _ & Hall). by simplify_eq.
  - split; [done|]. by intros (m' & Hm' & _).
Qed.

Lemma validate_iff (registry : Registry.ModelRegistry) name required :
  Policies._validate_model_capabilities registry name required = true
  ↔ required = [] ∨ Spec.usable registry name required.
Proof.
  destruct required as [|cap rest].
  - split; [by left|done].
  - rewrite validate_required. split; [by right|]. by intros [|].
Qed.

(** C1, as the code has it: capability validation succeeds if and only if
    the list of required capabilities is empty, or the name is in the
    directory, the deployment is healthy and it has every required
    capability.  This holds for the router's and for the policy manager's
    copy of the check.  With an empty list the check passes for every name,
    so in particular for every healthy deployment. *)
Theorem validate_model_capabilities_iff
    (self : Router.IntelligentRouter) (name : string) (required : list string) :
  (Router._validate_model_capabilities self name required = true
   ↔ required = [] ∨ Spec.usable (Router.model_registry self) name required)
  ∧ (Policies._validate_model_capabilities (Router.model_registry self) name required = true
     ↔ required = [] ∨ Spec.usable (Router.model_registry self) name required)
  ∧ Router._validate_model_capabilities self name [] = true.
Proof.
  rewrite validate_same. split_and!; [apply validate_iff..|done].
Qed.

(** C1 as stated fails: with no required capability the check accepts
    "claude-x", a name that is not in the directory. *)
Lemma validate_accepts_unknown_name :
  let self := Scenario.router Scenario.catalog Scenario.policy 0 in
  Registry.get_model (Router.model_registry self) "claude-x" = None
  ∧ ¬ (Router._validate_model_capabilities self "claude-x" [] = true
       ↔ Spec.usable (Router.model_registry self) "claude-x" []).
Proof.
  simpl. split; [done|].
  intros [Hto _]. destruct (Hto eq_refl) as (m & Hm & _).
  vm_compute in Hm. discriminate.
Qed.

(** ** Latency classes *)

Lemma meets_latency_levels model_latency required_latency :
  Router._meets_latency_requirement model_latency required_latency
  = (latency_level model_latency <=? latency_level required_latency)%Z.
Proof. reflexivity. Qed.

Lemma latency_level_unrecognized s :
  (s ∉ Spec.latency_classes) → Router.latency_hierarchy !! s = None.
Proof.
  unfold Spec.latency_classes. intros Hs.
  repeat (apply not_elem_of_cons in Hs as [? Hs]).
  unfold Router.latency_hierarchy.
  rewrite !lookup_insert_ne by done. by rewrite lookup_singleton_ne.
Qed.

Lemma latency_level_cases s :
  (s = "very_low" ∧ latency_level s = 0%Z)
  ∨ (s = "low" ∧ latency_level s = 1%Z)
  ∨ (s = "medium" ∧ latency_level s = 2%Z)
  ∨ (s = "high" ∧ latency_level s = 3%Z)
  ∨ ((s ∉ Spec.latency_classes) ∧ latency_level s = 3%Z).
Proof.
  destruct (decide (s = "very_low")) as [->|H0]; [by left|].
  destruct (decide (s = "low")) as [->|H1]; [by right; left|].
  destruct (decide (s = "medium")) as [->|H2]; [by right; right; left|].
  destruct (decide (s = "high")) as [->|H3]; [by right; right; right; left|].
  do 4 right.
  assert (s ∉ Spec.latency_classes) as Hs.
  { unfold Spec.latency_classes. rewrite !not_elem_of_cons. split_and!; try done.
    apply not_elem_of_nil. }
  split; [done|]. unfold latency_level, Py.dict_get.
  by rewrite latency_level_unrecognized.
Qed.

Lemma latency_level_le_high s : (latency_level s <= 3)%Z.
Proof. destruct (latency_level_cases s) as [[_ ->]|[[_ ->]|[[_ ->]|[[_ ->]|[_ ->]]]]]; lia. Qed.

(** C10: a latency class outside very_low, low, medium, high gets the level of
    "high", on the deployment side and on the request side alike.  So a
    deployment of such a class meets exactly the requirements that are "high"
    or unrecognized, and such a requirement is met by every deployment. *)
Theorem unrecognized_latency_is_slowest (u : string) :
  (u ∉ Spec.latency_classes) →
  latency_level u = latency_level "high"
  ∧ (∀ required, Router._meets_latency_requirement u required = true
                 ↔ required = "high" ∨ required ∉ Spec.latency_classes)
  ∧ (∀ model_latency, Router._meets_latency_requirement model_latency u = true).
Proof.
  intros Hu.
  assert (latency_level u = 3%Z) as Hlevel.
  { unfold latency_level, Py.dict_get. by rewrite latency_level_unrecognized. }
  split_and!.
  - by rewrite Hlevel.
  - intros required. rewrite meets_latency_levels, Hlevel, Z.leb_le.
    destruct (latency_level_cases required)
      as [[-> Hr]|[[-> Hr]|[[-> Hr]|[[-> Hr]|[Hn Hr]]]]]; rewrite Hr.
    + split; [lia|]. intros [|Hn]; [done|]. exfalso. apply Hn. set_solver.
    + split; [lia|]. intros [|Hn]; [done|]. exfalso. apply Hn. set_solver.
    + split; [lia|]. intros [|Hn]; [done|]. exfalso. apply Hn. set_solver.
    + split; [by left|lia].
    + split; [by right|lia].
  - intros model_latency. rewrite meets_latency_levels, Hlevel, Z.leb_le.
    apply latency_level_le_high.
Qed.

Lemma unrecognized_latency_is_slowest_witness :
  ("blazing" ∉ Spec.latency_classes)
  ∧ Router._meets_latency_requirement "blazing" "medium" = false
  ∧ Router._meets_latency_requirement "very_low" "blazing" = true.
Proof.
  assert ("blazing" ∉ Spec.latency_classes) as Hu.
  { unfold Spec.latency_classes. rewrite !not_elem_of_cons. split_and!; try done.
    apply not_elem_of_nil. }
  destruct (unrecognized_latency_is_slowest "blazing" Hu) as (_ & Hmodel & Hreq).
  split_and!; [done| |apply Hreq].
  destruct (Router._meets_latency_requirement "blazing" "medium") eqn:Hm; [|done].
  destruct (proj1 (Hmodel "medium") Hm) as [Heq|Hn]; [done|].
  exfalso. apply Hn. unfold Spec.latency_classes. set_solver.
Defined.

(** ** The budget gate *)

Lemma check_budget_same (month : string) (self : Router.IntelligentRouter)
    tenant policy budget_override :
  Router._check_budget_constraints month self tenant policy budget_override
  = Policies._check_budget_constraints month (Router.routing_policy_manager self)
      tenant policy budget_override.
Proof. reflexivity. Qed.

(** What the gate computes: the ceiling is the override only when the override
    is given and is not zero. *)
Lemma check_budget_iff (month : string) (mgr : Policies.RoutingPolicyManager)
    tenant policy budget_override :
  Policies._check_budget_constraints month mgr tenant policy budget_override = true
  ↔ Policies.automatic_downshift (Policies.budget_constraints policy) = false
    ∨ (Policies.current_spend mgr tenant month
       < Py.num_or budget_override
           (Policies.monthly_budget (Policies.budget_constraints policy))
         * Policies.cost_threshold (Policies.budget_constraints policy))%Q.
Proof.
  unfold Policies._check_budget_constraints.
  destruct (Policies.automatic_downshift _); simpl.
  - rewrite ltb_lt. split; [by right|]. by intros [|].
  - split; [by left|done].
Qed.

Lemma check_budget_no_downshift (month : string) (mgr : Policies.RoutingPolicyManager)
    tenant policy budget_override :
  Policies.automatic_downshift (Policies.budget_constraints policy) = false →
  Policies._check_budget_constraints month mgr tenant policy budget_override = true.
Proof. intros H. apply check_budget_iff. by left. Qed.

(** On every override that is absent or not zero the gate is the one of the
    specification. *)
Lemma check_budget_spec (month : string) (mgr : Policies.RoutingPolicyManager)
    tenant policy budget_override :
  (∀ q, budget_override = Some q → ¬ (q == 0)%Q) →
  Policies._check_budget_constraints month mgr tenant policy budget_override = true
  ↔ Spec.under_budget (Policies.current_spend mgr tenant month) policy budget_override.
Proof.
  intros Hq. rewrite check_budget_iff. unfold Spec.under_budget.
  destruct budget_override as [q|]; [|done].
  rewrite num_or_supplied by by apply Hq. done.
Qed.

(** C3 at an override ceiling of 0: the policy has a ceiling of 100, a
    threshold of 0.8 and automatic downshift on, and nothing has been spent.
    The specification's test, 0 < 0 * 0.8, is false; the code drops the zero
    override, tests 0 < 100 * 0.8 and answers true, in the router and in the
    policy manager. *)
Theorem check_budget_zero_override :
  let mgr := Scenario.store Scenario.policy 0 in
  let self := Scenario.router Scenario.catalog Scenario.policy 0 in
  Policies._check_budget_constraints Scenario.month mgr "default" Scenario.policy (Some 0%Q)
  = true
  ∧ Router._check_budget_constraints Scenario.month self "default" Scenario.policy (Some 0%Q)
    = true
  ∧ ¬ Spec.under_budget (Policies.current_spend mgr "default" Scenario.month)
        Scenario.policy (Some 0%Q).
Proof.
  split_and!; [by vm_compute..|].
  intros [Hoff|Hlt]; [done|]. by vm_compute in Hlt.
Qed.

(** ** Recording spend *)

Lemma current_spend_record (month : string) (mgr : Policies.RoutingPolicyManager)
    tenant amount tenant' month' :
  Policies.current_spend (Policies.record_usage_cost month mgr tenant amount) tenant' month'
  = if decide (tenant' = tenant ∧ month' = month)
    then (Policies.current_spend mgr tenant month + amount)%Q
    else Policies.current_spend mgr tenant' month'.
Proof.
  unfold Policies.current_spend, Policies.record_usage_cost, Py.dict_get. simpl.
  destruct (decide (tenant' = tenant)) as [->|Ht].
  - rewrite lookup_insert_eq. simpl.
    destruct (decide (month' = month)) as [->|Hm].
    + rewrite lookup_insert_eq. by rewrite decide_True.
    + rewrite lookup_insert_ne by done.
      destruct (decide _) as [[_ Heq]|_]; [contradiction|done].
  - rewrite lookup_insert_ne by done.
    destruct (decide _) as [[Heq _]|_]; [contradiction|done].
Qed.

(** C4, as the code has it: [record_usage_cost] has no error path.  For every
    tenant and every amount, negative or not, it returns with the amount added
    to the tenant's entry for the current month (created at 0 when missing);
    every other entry of the ledger and the policies are as before. *)
Theorem record_usage_cost_adds (month : string) (mgr : Policies.RoutingPolicyManager)
    (tenant : string) (amount : Q) :
  let mgr' := Policies.record_usage_cost month mgr tenant amount in
  Policies.current_spend mgr' tenant month
  = (Policies.current_spend mgr tenant month + amount)%Q
  ∧ (∀ tenant' month', ¬ (tenant' = tenant ∧ month' = month) →
       Policies.current_spend mgr' tenant' month' = Policies.current_spend mgr tenant' month')
  ∧ Policies.policies mgr' = Policies.policies mgr.
Proof.
  simpl. split_and!.
  - rewrite current_spend_record. by rewrite decide_True.
  - intros tenant' month' Hne. rewrite current_spend_record. by rewrite decide_False.
  - done.
Qed.

Lemma record_usage_cost_adds_witness :
  let mgr := Scenario.store Scenario.policy 10 in
  let mgr' := Policies.record_usage_cost Scenario.month mgr "default" (-5)%Q in
  Policies.current_spend mgr' "acme" Scenario.month
  = Policies.current_spend mgr "acme" Scenario.month.
Proof.
  simpl.
  apply (proj1 (proj2 (record_usage_cost_adds Scenario.month
                         (Scenario.store Scenario.policy 10) "default" (-5)%Q))).
  intros [Ht _]. discriminate Ht.
Defined.

(** C4 as stated fails: a spend of -5 is accepted and takes the month's entry
    of the tenant from 10 down to 5. *)
Lemma record_usage_cost_negative :
  let mgr := Scenario.store Scenario.policy 10 in
  let mgr' := Policies.record_usage_cost Scenario.month mgr "default" (-5)%Q in
  (Policies.current_spend mgr "default" Scenario.month == 10)%Q
  ∧ (Policies.current_spend mgr' "default" Scenario.month == 5)%Q
  ∧ Policies.budget_tracker mgr' ≠ Policies.budget_tracker mgr.
Proof.
  intros mgr mgr'. split_and!; [by vm_compute..|].
  intros Heq.
  apply (f_equal (λ t, Py.dict_get (Py.dict_get t "default" ∅) Scenario.month 0%Q)) in Heq.
  vm_compute in Heq. discriminate Heq.
Qed.

(** ** The preference ordering *)

Lemma first_passing_some (self : Router.IntelligentRouter) request cs name :
  Order.first_passing self request cs = Some name →
  ∃ before c after,
    cs = (before ++ c :: after)%list
    ∧ Order.cand_name c = name
    ∧ Order.passes self request c = true
    ∧ Forall (λ c', Order.passes self request c' = false) before.
Proof.
  induction cs as [|c rest IH]; simpl; [done|].
  destruct (Order.passes self request c) eqn:Hc.
  - intros [= <-]. by exists [], c, rest.
  - intros Hrest. destruct (IH Hrest) as (before & c' & after & -> & Hn & Hp & Hb).
    exists (c :: before), c', after. split_and!; try done. by constructor.
Qed.


Ltac split_candidates :=
  repeat match goal with
         | |- context [Py.str_truthy ?s] => destruct (Py.str_truthy s); simpl
         end;
  unfold Order.passes; simpl;
  repeat match goal with
         | |- context [Router._validate_model_capabilities ?a ?n ?r] =>
             destruct (Router._validate_model_capabilities a n r); simpl
         | |- context [Router._check_performance_requirements ?a ?n ?r] =>
             destruct (Router._check_performance_requirements a n r); simpl
         end.

Lemma quality_model_first_passing (self : Router.IntelligentRouter) request policy :
  Router._select_quality_priority_model self request policy
  = Order.first_passing self request
      (Order.quality_order (Policies.model_selection_rules policy)).
Proof.
  unfold Router._select_quality_priority_model, Router.try_budget_fallback,
    Order.quality_order, Order.optional.
  destruct (Policies.model_selection_rules policy) as [p [f|] [b|]]; simpl;
    split_candidates; done.
Qed.

Lemma cost_model_first_passing (self : Router.IntelligentRouter) request policy :
  Router._select_cost_optimized_model self request policy
  = Order.first_passing self request
      (Order.cost_order (Policies.model_selection_rules policy)).
Proof.
  unfold Router._select_cost_optimized_model, Router.try_budget_fallback,
    Order.cost_order, Order.optional.
  destruct (Policies.model_selection_rules policy) as [p [f|] [b|]]; simpl;
    split_candidates; done.
Qed.

Lemma optional_member (o : option string) (perf : bool) c :
  c ∈ Order.optional o perf → o = Some (Order.cand_name c) ∧ Order.cand_perf c = perf.
Proof.
  unfold Order.optional. destruct o as [name|]; [|by intros ?%elem_of_nil].
  destruct (Py.str_truthy name); [|by intros ?%elem_of_nil].
  by intros ->%list_elem_of_singleton.
Qed.

(** Every candidate of either order gets the performance check, except the
    budget fallback. *)
Lemma order_member (rules : Policies.ModelSelectionRules) c :
  c ∈ Order.quality_order rules ∨ c ∈ Order.cost_order rules →
  Order.cand_perf c = true ∨ Policies.budget_fallback rules = Some (Order.cand_name c).
Proof.
  unfold Order.quality_order, Order.cost_order.
  rewrite !elem_of_app, !list_elem_of_singleton.
  intros [[->|[Hf|Hb]]|[Hf|[->|Hb]]];
    try (by left);
    try (left; by apply optional_member in Hf as [_ ?]);
    right; by apply optional_member in Hb as [? _].
Qed.

Lemma selected_candidate_passes (self : Router.IntelligentRouter) request rules name :
  Order.first_passing self request (Order.quality_order rules) = Some name
  ∨ Order.first_passing self request (Order.cost_order rules) = Some name →
  Router._validate_model_capabilities self name (Router.required_capabilities request) = true
  ∧ (Router._check_performance_requirements self name request = true
     ∨ Policies.budget_fallback rules = Some name).
Proof.
  intros Hsel.
  assert (∃ c, (c ∈ Order.quality_order rules ∨ c ∈ Order.cost_order rules)
               ∧ Order.cand_name c = name
               ∧ Order.passes self request c = true) as (c & Hin & <- & Hpass).
  { destruct Hsel as [Hsel|Hsel];
      apply first_passing_some in Hsel
        as (before & c & after & Hcs & Hname & Hpass & _);
      exists c; (split; [|done]); [left|right]; rewrite Hcs; set_solver. }
  unfold Order.passes in Hpass. apply andb_true_iff in Hpass as [Hv Hp].
  split; [done|].
  destruct (order_member rules c Hin) as [Hperf|Hbf]; [|by right].
  rewrite Hperf in Hp. by left.
Qed.

(** C6, as the code has it: under quality priority the candidates are tried
    in the order primary, fallback, budget fallback, under cost priority in
    the order fallback, primary, budget fallback, and the first one that
    passes is returned.  The primary and the fallback pass when they pass
    capability validation and the performance check; the budget fallback,
    tried last, passes on capability validation alone.  So a selected
    deployment has passed capability validation, and has passed the
    performance check unless it is the budget fallback. *)
Theorem preference_order_first_passing (self : Router.IntelligentRouter)
    (request : Router.RoutingRequest) (policy : Policies.RoutingPolicy) :
  let rules := Policies.model_selection_rules policy in
  Router._select_quality_priority_model self request policy
  = Order.first_passing self request (Order.quality_order rules)
  ∧ Router._select_cost_optimized_model self request policy
    = Order.first_passing self request (Order.cost_order rules)
  ∧ (∀ name,
       Router._select_quality_priority_model self request policy = Some name
       ∨ Router._select_cost_optimized_model self request policy = Some name →
       Router._validate_model_capabilities self name
         (Router.required_capabilities request) = true
       ∧ (Router._check_performance_requirements self name request = true
          ∨ Policies.budget_fallback rules = Some name)).
Proof.
  intros rules. split_and!.
  - apply quality_model_first_passing.
  - apply cost_model_first_passing.
  - intros name. rewrite quality_model_first_passing, cost_model_first_passing.
    apply selected_candidate_passes.
Qed.

Lemma preference_order_first_passing_witness :
  let self := Scenario.router Scenario.catalog Scenario.policy 0 in
  Router._validate_model_capabilities self "gpt-4o" ["chat"] = true
  ∧ (Router._check_performance_requirements self "gpt-4o" (Scenario.request ["chat"]) = true
     ∨ Policies.budget_fallback Scenario.chain = Some "gpt-4o").
Proof.
  intros self.
  apply (proj2 (proj2 (preference_order_first_passing self (Scenario.request ["chat"])
                         Scenario.policy)) "gpt-4o").
  left. reflexivity.
Defined.

(** C6 as stated fails for the budget fallback: the request asks for latency
    very_low, which none of the three deployments has; gpt-35-turbo fails the
    performance check and is selected all the same, in both orderings. *)
Lemma budget_fallback_skips_performance_check :
  let self := Scenario.router Scenario.catalog Scenario.policy 0 in
  let request :=
    {| Router.tenant_id := "default";
       Router.feature := "chat";
       Router.required_capabilities := ["chat"];
       Router.quality_priority := None;
       Router.budget_override := None;
       Router.latency_requirement := Some "very_low";
       Router.context_length_estimate := None;
       Router.user_override := None |} in
  Router._check_performance_requirements self "gpt-35-turbo" request = false
  ∧ Router._select_quality_priority_model self request Scenario.policy = Some "gpt-35-turbo"
  ∧ Router._select_cost_optimized_model self request Scenario.policy = Some "gpt-35-turbo".
Proof. by vm_compute. Qed.

(** ** The decisions of [route_request] *)

Section Decisions.

Variable now : timestamp.
Variable month : string.
Variable self : Router.IntelligentRouter.

Lemma route_override_accepted request name :
  Router.override_accepted self request = Some name →
  Router.route_request now month self request
  = (Router._create_override_response self name request, self).
Proof. intros H. unfold Router.route_request. by rewrite H. Qed.


Lemma override_accepted_iff request name :
  Router.override_accepted self request = Some name
  ↔ Router.user_override request = Some name
    ∧ Py.str_truthy name = true
    ∧ Router._validate_model_capabilities self name
        (Router.required_capabilities request) = true.
Proof.
  unfold Router.override_accepted, Router._validate_user_override.
  destruct (Router.user_override request) as [n|].
  2: { split; [done|]. by intros [? _]. }
  destruct (Py.str_truthy n) eqn:Ht; simpl.
  - destruct (Router._validate_model_capabilities self n _) eqn:Hv.
    + split; [by intros [= <-]|]. by intros ([= <-] & _ & _).
    + split; [done|]. intros ([= <-] & _ & Hv'). by rewrite Hv in Hv'.
  - split; [done|]. intros ([= <-] & Ht' & _). by rewrite Ht in Ht'.
Qed.

Lemma route_policy_cases request :
  Router.override_accepted self request = None →
  let d := (Router.route_request now month self request).1 in
  match Router.resolve_policy self request with
  | None => d = Router._create_error_response Router.reason_no_policy
  | Some policy =>
      match selection month self request policy with
      | Some selected => d = Router._create_routing_response self request selected policy
      | None => d = Router._create_error_response Router.reason_no_model
      end
  end.
Proof.
  intros H. unfold Router.route_request, selection. rewrite H.
  destruct (Router.resolve_policy self request) as [policy|]; [|done].
  destruct (Router._select_optimal_model month self request policy) as [selected|]; [|done].
  by destruct (Py.str_truthy selected).
Qed.




End Decisions.




(** ** Budget gate priority and the decision rules *)






(** ** Failure decisions *)




Lemma route_failure_keeps_router (now : timestamp) (month : string)
    (self : Router.IntelligentRouter) request :
  Router.selected_model (Router.route_request now month self request).1 = "" →
  (Router.route_request now month self request).2 = self.
Proof.
  unfold Router.route_request.
  destruct (Router.override_accepted self request) as [name|]; [done|].
  destruct (Router.resolve_policy self request) as [policy|]; [|done].
  destruct (Router._select_optimal_model month self request policy) as [selected|]; [|done].
  destruct (Py.str_truthy selected) eqn:Ht; [|done].
  simpl. intros ->. discriminate Ht.
Qed.

(** *** The conversion of the token count *)









(** ** Loading from a source that fails *)

Lemma load_config_no_file environ now (r : Registry.ModelRegistry) :
  Registry.load_config environ now Json.NoFile r = r
  ∧ Registry.load_config environ now Json.Unreadable r = r.
Proof. done. Qed.

Lemma load_policies_no_file now (mgr : Policies.RoutingPolicyManager) :
  Policies.load_policies now Json.NoFile mgr = mgr
  ∧ Policies.load_policies now Json.Unreadable mgr = mgr.
Proof. done. Qed.

(** C5 on a source that decodes but holds a malformed entry.  The catalog
    held gpt-4o, gpt-4o-mini and gpt-35-turbo; the file lists a complete
    entry and then one without "endpoint".  The loop stops at the second
    entry, the load is not recorded as done, and the catalog is left with the
    first entry of the file only: the three deployments are gone.  A file
    whose top level is a JSON array leaves the catalog empty.  The policy
    store, loaded from the same file, loses its policy and is left empty. *)
Theorem failed_load_replaces_snapshot :
  let before := Scenario.catalog in
  let after :=
    Registry.load_config ∅ 1%Z (Json.Contents BadSource.config) before in
  let store := Scenario.store Scenario.policy 0 in
  (Registry.load_models ∅ [BadSource.embedding_entry; BadSource.incomplete_entry] ∅).2 = false
  ∧ Registry.last_config_load after = Registry.last_config_load before
  ∧ Registry.get_model before "gpt-4o" = Some Scenario.gpt4o
  ∧ Registry.get_model after "gpt-4o" = None
  ∧ Registry.get_model after "gpt-4o-mini" = None
  ∧ Registry.get_model after "gpt-35-turbo" = None
  ∧ is_Some (Registry.get_model after "text-embedding-3-small")
  ∧ Registry.models
      (Registry.load_config ∅ 1%Z (Json.Contents (Json.JList [])) before) = ∅
  ∧ Policies.get_policy store "default" "chat" = Some Scenario.policy
  ∧ Policies.policies
      (Policies.load_policies 1%Z (Json.Contents BadSource.config) store) = ∅.
Proof.
  split_and!; try by vm_compute.
  vm_compute. by eexists.
Qed.

Example load_complete_entry :
  let environ : gmap string string := {[ "AZURE_OPENAI_ENDPOINT" := "https://eu.example/" ]} in
  let after :=
    Registry.load_config environ 1%Z
      (Json.Contents (Json.JDict [("models", Json.JList [BadSource.embedding_entry])]))
      Scenario.catalog in
  Registry.last_config_load after = Some 1%Z
  ∧ Registry.endpoint <$> Registry.get_model after "text-embedding-3-small"
    = Some "https://eu.example/"
  ∧ Registry.get_model after "gpt-4o" = None.
Proof. by vm_compute. Qed.

(** ** Backend failures *)

Section Failures.

Variable now : timestamp.
Variable month : string.
Variable elapsed_ms : Q.
Variable lower_contains : string → string → bool.
Variable word_count : string → Z.
Variable chat_backend : string → Client.ChatCompletionRequest → Client.result Client.BackendChat.
Variable embedding_backend :
  string → Client.EmbeddingRequest → Client.result Client.BackendEmbedding.

(** The handler writes the count 1 into the entry, whatever count was there. *)
Lemma mark_unhealthy_entry (self : Client.AzureOpenAIClient) (selected : string) :
  Registry.get_model (Client.model_registry (Client.mark_unhealthy now self selected)) selected
  = (λ m, Registry.set_health m "unhealthy" now 1)
      <$> Registry.get_model (Client.model_registry self) selected.
Proof.
  unfold Client.mark_unhealthy, Client.model_registry, Client.with_registry,
    Client.with_router, Registry.update_model_health, Registry.get_model. simpl.
  destruct (Registry.models (Router.model_registry (Client.intelligent_router self))
            !! selected) as [m|] eqn:Hm; simpl.
  - apply lookup_insert_eq.
  - exact Hm.
Qed.

(** A failed backend call: the exception reaches the caller, the deployment is
    marked by the handler, and the backend was called once, with the selected
    deployment. *)
Lemma chat_completion_failure (self : Client.AzureOpenAIClient) request tenant feat
    override routing_response router' e :
  Router.route_request now month (Client.intelligent_router self)
    {| Router.tenant_id := tenant;
       Router.feature := feat;
       Router.required_capabilities :=
         Client.chat_required_capabilities lower_contains request;
       Router.quality_priority := None;
       Router.budget_override := None;
       Router.latency_requirement := None;
       Router.context_length_estimate :=
         Some (Client._estimate_context_length word_count (Client.messages request));
       Router.user_override := override |}
  = (routing_response, router') →
  Py.str_truthy (Router.selected_model routing_response) = true →
  Router.selected_model routing_response ∈ Client.clients self →
  chat_backend (Router.selected_model routing_response) request = Client.Raised e →
  Client.chat_completion now month elapsed_ms lower_contains word_count chat_backend
    self request tenant feat override
  = (Client.Raised e,
     Client.mark_unhealthy now (Client.with_router self router')
       (Router.selected_model routing_response),
     [Router.selected_model routing_response]).
Proof.
  intros Hroute Ht Hclient Hfail. unfold Client.chat_completion.
  rewrite Hroute, Ht. simpl. unfold Client._execute_chat_completion. simpl.
  rewrite bool_decide_eq_true_2 by done. by rewrite Hfail.
Qed.

Lemma create_embedding_failure (self : Client.AzureOpenAIClient) request tenant feat
    override routing_response router' e :
  Router.route_request now month (Client.intelligent_router self)
    {| Router.tenant_id := tenant;
       Router.feature := feat;
       Router.required_capabilities := ["embeddings"];
       Router.quality_priority := None;
       Router.budget_override := None;
       Router.latency_requirement := None;
       Router.context_length_estimate := Some (word_count (Client.text request));
       Router.user_override := override |}
  = (routing_response, router') →
  Py.str_truthy (Router.selected_model routing_response) = true →
  Router.selected_model routing_response ∈ Client.clients self →
  embedding_backend (Router.selected_model routing_response) request = Client.Raised e →
  Client.create_embedding now month elapsed_ms word_count embedding_backend
    self request tenant feat override
  = (Client.Raised e,
     Client.mark_unhealthy now (Client.with_router self router')
       (Router.selected_model routing_response),
     [Router.selected_model routing_response]).
Proof.
  intros Hroute Ht Hclient Hfail. unfold Client.create_embedding.
  rewrite Hroute, Ht. simpl. unfold Client._execute_embedding. simpl.
  rewrite bool_decide_eq_true_2 by done. by rewrite Hfail.
Qed.

End Failures.

(** C8 on a deployment that fails twice.  The first failed call on gpt-4o
    leaves it unhealthy with an error count of 1.  It is then reported healthy
    again with that count, and the next call fails too: the client raises the
    backend's exception, has called the backend once (with gpt-4o) and marks
    gpt-4o unhealthy, but the error count is 1 again, where the previous count
    plus one is 2.  The embedding entry point does the same. *)
Theorem failure_resets_error_count :
  let first := Outage.chat 5%Z Outage.client in
  let up_again := Outage.recover 6%Z first.1.2 "gpt-4o" in
  let second := Outage.chat 7%Z up_again in
  let first_e := Outage.embed 5%Z Outage.client in
  let up_again_e := Outage.recover 6%Z first_e.1.2 "text-embedding-3-small" in
  let second_e := Outage.embed 7%Z up_again_e in
  (Outage.error_count_of Outage.client "gpt-4o" = Some 0%Z
   ∧ Outage.error_count_of first.1.2 "gpt-4o" = Some 1%Z
   ∧ Outage.health_of up_again "gpt-4o" = Some "healthy"
   ∧ Outage.error_count_of up_again "gpt-4o" = Some 1%Z
   ∧ second.1.1 = Client.Raised (Client.BackendError "connection refused")
   ∧ second.2 = ["gpt-4o"]
   ∧ Outage.health_of second.1.2 "gpt-4o" = Some "unhealthy"
   ∧ Outage.error_count_of second.1.2 "gpt-4o" = Some 1%Z)
  ∧ (Outage.error_count_of up_again_e "text-embedding-3-small" = Some 1%Z
     ∧ second_e.1.1 = Client.Raised (Client.BackendError "connection refused")
     ∧ second_e.2 = ["text-embedding-3-small"]
     ∧ Outage.health_of second_e.1.2 "text-embedding-3-small" = Some "unhealthy"
     ∧ Outage.error_count_of second_e.1.2 "text-embedding-3-small" = Some 1%Z).
Proof. by vm_compute. Qed.

(** * Further properties *)

(** ** The catalog: health reports and usage counters *)

(** X1: a health report touches one entry only.  The set of deployment names
    and [last_config_load] stay as they are, every other name reads as
    before, a report for an unknown name changes nothing, and the reported
    entry gets the status, the count and the time of the report while its
    capabilities, performance class, cost and usage counters are kept. *)
Theorem update_model_health_entry (now : timestamp) (r : Registry.ModelRegistry)
    (name status : string) (count : Z) :
  let r' := Registry.update_model_health now r name status count in
  dom (Registry.models r') = dom (Registry.models r)
  ∧ Registry.last_config_load r' = Registry.last_config_load r
  ∧ (∀ other, other ≠ name → Registry.get_model r' other = Registry.get_model r other)
  ∧ (Registry.get_model r name = None → r' = r)
  ∧ (∀ model, Registry.get_model r name = Some model →
       ∃ model', Registry.get_model r' name = Some model'
         ∧ Registry.health_status model' = status
         ∧ Registry.error_count model' = count
         ∧ Registry.last_health_check model' = Some now
         ∧ Registry.capabilities model' = Registry.capabilities model
         ∧ Registry.performance_metrics model' = Registry.performance_metrics model
         ∧ Registry.cost_per_token model' = Registry.cost_per_token model
         ∧ Registry.total_requests model' = Registry.total_requests model
         ∧ Registry.total_tokens model' = Registry.total_tokens model).
Proof.
  unfold Registry.update_model_health, Registry.get_model.
  destruct (Registry.models r !! name) as [m|] eqn:Hm; simpl.
  - split_and!; try done.
    + rewrite dom_insert_L. apply subseteq_union_1_L, singleton_subseteq_l.
      by apply elem_of_dom_2 in Hm.
    + intros other Hne. by rewrite lookup_insert_ne.
    + intros model [= <-]. exists (Registry.set_health m status now count).
      by rewrite lookup_insert_eq.
  - split_and!; try done.
Qed.

Lemma update_model_health_entry_witness :
  ∃ model',
    Registry.get_model
      (Registry.update_model_health 9%Z Scenario.catalog "gpt-4o" "degraded" 4%Z) "gpt-4o"
    = Some model'
    ∧ Registry.health_status model' = "degraded"
    ∧ Registry.capabilities model' = ["chat"; "vision"].
Proof.
  destruct (proj2 (proj2 (proj2 (proj2
              (update_model_health_entry 9%Z Scenario.catalog "gpt-4o" "degraded" 4%Z))))
              Scenario.gpt4o eq_refl)
    as (model' & Hget & Hh & _ & _ & Hcaps & _).
  exists model'. split_and!; [exact Hget|exact Hh|exact Hcaps].
Defined.

Lemma add_usage_add (m : Registry.ModelInfo) (a b c d : Z) :
  Registry.add_usage (Registry.add_usage m a b) c d = Registry.add_usage m (a + c) (b + d).
Proof. unfold Registry.add_usage. simpl. f_equal; lia. Qed.

(** X2: usage reports add up.  Two reports for a deployment leave the catalog
    as one report of the summed requests and tokens does; a report for an
    unknown name changes nothing; and a report never changes the health
    fields of the entry. *)
Theorem record_usage_accumulates (r : Registry.ModelRegistry) (name : string)
    (requests tokens requests' tokens' : Z) :
  Registry.record_usage (Registry.record_usage r name requests tokens) name requests' tokens'
  = Registry.record_usage r name (requests + requests') (tokens + tokens')
  ∧ (Registry.get_model r name = None → Registry.record_usage r name requests tokens = r)
  ∧ (Registry.health_status <$> Registry.get_model (Registry.record_usage r name requests tokens) name)
    = (Registry.health_status <$> Registry.get_model r name)
  ∧ (Registry.error_count <$> Registry.get_model (Registry.record_usage r name requests tokens) name)
    = (Registry.error_count <$> Registry.get_model r name).
Proof.
  unfold Registry.record_usage, Registry.get_model.
  destruct (Registry.models r !! name) as [m|] eqn:Hm; simpl.
  - rewrite !lookup_insert_eq. split_and!; try done.
    by rewrite insert_insert_eq, add_usage_add.
  - rewrite Hm. split_and!; try done; by rewrite Hm.
Qed.

Lemma record_usage_accumulates_witness :
  Registry.record_usage Scenario.catalog "claude-x" 1 250 = Scenario.catalog.
Proof.
  apply (proj1 (proj2 (record_usage_accumulates Scenario.catalog "claude-x" 1 250 0 0))).
  reflexivity.
Defined.

(** ** The catalog: loading *)

Lemma create_model_info_fresh model_data model :
  Registry._create_model_info model_data = Some model → Inv.fresh model.
Proof.
  unfold Registry._create_model_info. intros H.
  repeat match type of H with
         | mbind _ ?o = Some _ => destruct o; simpl in H; [|discriminate H]
         end.
  injection H as <-. by repeat split.
Qed.

Lemma load_models_invariant environ (P : string → Registry.ModelInfo → Prop) :
  (∀ model_data items model,
     Registry._resolve_model_data environ model_data = Some items →
     Registry._create_model_info items = Some model →
     P (Registry.deployment_name model) model) →
  ∀ entries acc,
    map_Forall P acc →
    map_Forall P (Registry.load_models environ entries acc).1.
Proof.
  intros Hnew entries. induction entries as [|model_data rest IH]; intros acc Hacc.
  - done.
  - simpl.
    destruct (Registry._resolve_model_data environ model_data) as [items|] eqn:Hres;
      simpl; [|done].
    destruct (Registry._create_model_info items) as [model|] eqn:Hmk; [|done].
    apply IH. apply map_Forall_insert_2; [|done]. by eapply Hnew.
Qed.

Lemma load_config_models environ now config (r : Registry.ModelRegistry)
    (P : string → Registry.ModelInfo → Prop) :
  (∀ model_data items model,
     Registry._resolve_model_data environ model_data = Some items →
     Registry._create_model_info items = Some model →
     P (Registry.deployment_name model) model) →
  map_Forall P (Registry.models (Registry.load_config environ now (Json.Contents config) r)).
Proof.
  intros Hnew. unfold Registry.load_config.
  destruct (Json.get config "models" (Json.JList []) ≫= Json.iter) as [entries|];
    [|apply map_Forall_empty].
  pose proof (load_models_invariant environ P Hnew entries ∅ (map_Forall_empty _)) as Hall.
  by destruct (Registry.load_models environ entries ∅) as [ms completed].
Qed.

(** X3: the catalog stays keyed by deployment name.  After [load_config]
    on a well-typed decoded file every entry sits under its own
    [deployment_name]; a load from a missing or undecodable file, a health
    report and a usage report keep that property. *)
Theorem catalog_keyed_by_name environ (now : timestamp) (r : Registry.ModelRegistry) :
  (∀ config,
     Typed.models config = true →
     Inv.keyed (Registry.load_config environ now (Json.Contents config) r))
  ∧ (Inv.keyed r →
       (∀ file,
          Typed.models_file file = true →
          Inv.keyed (Registry.load_config environ now file r))
       ∧ (∀ name status count,
            Inv.keyed (Registry.update_model_health now r name status count))
       ∧ (∀ name requests tokens, Inv.keyed (Registry.record_usage r name requests tokens))).
Proof.
  assert (∀ config, Inv.keyed (Registry.load_config environ now (Json.Contents config) r))
    as Hload.
  { intros config name model Hget.
    by apply (load_config_models environ now config r
                (λ name model, Registry.deployment_name model = name)). }
  split; [by intros config _|]. intros Hk. split_and!.
  - intros [| |config] _; [done|done|apply Hload].
  - intros name status count k m.
    unfold Registry.update_model_health.
    destruct (Registry.models r !! name) as [m0|] eqn:Hm; simpl; [|apply Hk].
    destruct (decide (k = name)) as [->|Hne].
    + rewrite lookup_insert_eq. intros [= <-]. simpl. by apply Hk.
    + rewrite lookup_insert_ne by done. apply Hk.
  - intros name requests tokens k m.
    unfold Registry.record_usage.
    destruct (Registry.models r !! name) as [m0|] eqn:Hm; simpl; [|apply Hk].
    destruct (decide (k = name)) as [->|Hne].
    + rewrite lookup_insert_eq. intros [= <-]. simpl. by apply Hk.
    + rewrite lookup_insert_ne by done. apply Hk.
Qed.

Lemma scenario_catalog_keyed : Inv.keyed Scenario.catalog.
Proof.
  intros name model. unfold Scenario.catalog. simpl.
  rewrite !lookup_insert. repeat case_decide; subst; try (by intros [= <-]).
  rewrite lookup_singleton. case_decide; subst; [by intros [= <-]|done].
Qed.

Lemma catalog_keyed_by_name_witness :
  Inv.keyed (Registry.load_config Online.environ 3%Z (Json.Contents GoodSource.config)
               Scenario.catalog)
  ∧ Inv.keyed (Registry.update_model_health 3%Z Scenario.catalog "gpt-4o" "unhealthy" 1%Z).
Proof.
  split.
  - apply (proj1 (catalog_keyed_by_name Online.environ 3%Z Scenario.catalog)
             GoodSource.config).
    reflexivity.
  - apply (proj2 (catalog_keyed_by_name ∅ 3%Z Scenario.catalog) scenario_catalog_keyed).
Defined.

(** X4: a second load replaces the first.  Loading a well-typed file and
    then loading it again leaves the registry as a single load at the time
    of the second one does; and the deployments after a load from a
    well-typed decoded file are determined by the file and the environment
    alone, whatever the catalog held before and whenever the load ran. *)
Theorem load_config_idempotent environ (now1 now2 : timestamp) (file : Json.config_file)
    (r r2 : Registry.ModelRegistry) :
  (Typed.models_file file = true →
     Registry.load_config environ now2 file (Registry.load_config environ now1 file r)
     = Registry.load_config environ now2 file r)
  ∧ (∀ config,
       Typed.models config = true →
       Registry.models (Registry.load_config environ now1 (Json.Contents config) r)
       = Registry.models (Registry.load_config environ now2 (Json.Contents config) r2)).
Proof.
  split.
  - intros _. destruct file as [| |config]; [done|done|]. unfold Registry.load_config.
    destruct (Json.get config "models" (Json.JList []) ≫= Json.iter) as [entries|]; [|done].
    destruct (Registry.load_models environ entries ∅) as [ms completed].
    by destruct completed.
  - intros config _. unfold Registry.load_config.
    destruct (Json.get config "models" (Json.JList []) ≫= Json.iter) as [entries|]; [|done].
    by destruct (Registry.load_models environ entries ∅) as [ms completed].
Qed.

Lemma load_config_idempotent_witness :
  Registry.load_config Online.environ 2%Z (Json.Contents GoodSource.config)
    (Registry.load_config Online.environ 1%Z (Json.Contents GoodSource.config)
       Scenario.catalog)
  = Registry.load_config Online.environ 2%Z (Json.Contents GoodSource.config)
      Scenario.catalog.
Proof.
  apply (proj1 (load_config_idempotent Online.environ 1%Z 2%Z
                  (Json.Contents GoodSource.config) Scenario.catalog Scenario.catalog)).
  reflexivity.
Defined.

(** X5: a reload starts every deployment afresh.  After a load from a
    well-typed decoded file each entry of the catalog has no health check, no
    error and no usage on record, whatever the counters were before. *)
Theorem load_config_resets_counters environ (now : timestamp) (config : Json.json)
    (r : Registry.ModelRegistry) (name : string) (model : Registry.ModelInfo) :
  Typed.models config = true →
  Registry.get_model (Registry.load_config environ now (Json.Contents config) r) name
  = Some model →
  Inv.fresh model.
Proof.
  intros _ Hget.
  refine (load_config_models environ now config r (λ _ m, Inv.fresh m) _ name model Hget).
  intros model_data items m _ Hmk. by eapply create_model_info_fresh.
Qed.

Lemma load_config_resets_counters_witness :
  let after :=
    Registry.load_config ∅ 1%Z (Json.Contents GoodSource.config)
      (Registry.record_usage Outage.catalog "text-embedding-3-small" 7 900) in
  Registry.total_requests <$> Registry.get_model after "text-embedding-3-small" = Some 0%Z.
Proof.
  intros after.
  destruct (Registry.get_model after "text-embedding-3-small") as [model|] eqn:Hget.
  - destruct (load_config_resets_counters ∅ 1%Z GoodSource.config
                (Registry.record_usage Outage.catalog "text-embedding-3-small" 7 900)
                "text-embedding-3-small" model eq_refl Hget) as (_ & _ & Hreq & _).
    simpl. by rewrite Hreq.
  - vm_compute in Hget. discriminate Hget.
Defined.

(** ** The catalog: environment variables in the configuration *)

Lemma getenv_or_spec environ name value :
  (∀ v, environ !! name = Some v → v ≠ "" → Registry.getenv_or environ name value = v)
  ∧ (environ !! name = None ∨ environ !! name = Some "" →
     Registry.getenv_or environ name value = value).
Proof.
  unfold Registry.getenv_or. split.
  - intros v -> Hne. unfold Py.str_truthy. by rewrite bool_decide_eq_true_2.
  - by intros [-> | ->].
Qed.

Lemma resolve_not_dollar environ (value : string) :
  (∀ name, value ≠ String "$"%char name) →
  Registry._resolve_environment_variables environ value
  = Registry.getenv_or environ value value.
Proof.
  intros Hnot. unfold Registry._resolve_environment_variables.
  destruct value as [|c rest]; [done|].
  destruct (decide (c = "$"%char)) as [->|Hc]; [by destruct (Hnot rest)|].
  destruct c as [[] [] [] [] [] [] [] []]; try reflexivity. by destruct Hc.
Qed.

(** X6: which environment variable a configuration string reads.  A string
    that starts with "$" reads the variable named by what follows the "$",
    and only that one; any other string reads the variable named by the
    whole string.  The string is replaced by the value of that variable when
    the variable is set to a non-empty value, and is kept as it is when the
    variable is unset or set to the empty string. *)
Theorem resolve_environment_variable (environ : gmap string string) (value : string) :
  let resolved := Registry._resolve_environment_variables environ value in
  (∀ name, value = String "$"%char name →
     (∀ v, environ !! name = Some v → v ≠ "" → resolved = v)
     ∧ (environ !! name = None ∨ environ !! name = Some "" → resolved = value))
  ∧ ((∀ name, value ≠ String "$"%char name) →
     (∀ v, environ !! value = Some v → v ≠ "" → resolved = v)
     ∧ (environ !! value = None ∨ environ !! value = Some "" → resolved = value)).
Proof.
  simpl. split.
  - intros name ->. apply getenv_or_spec.
  - intros Hnot. rewrite (resolve_not_dollar environ value Hnot). apply getenv_or_spec.
Qed.

Lemma resolve_environment_variable_witness :
  Registry._resolve_environment_variables Online.environ "$AZURE_OPENAI_ENDPOINT"
  = "https://example.openai.azure.com/".
Proof.
  apply (proj1 (proj1 (resolve_environment_variable Online.environ "$AZURE_OPENAI_ENDPOINT")
                  "AZURE_OPENAI_ENDPOINT" eq_refl)).
  - reflexivity.
  - discriminate.
Defined.

Lemma resolve_string_empty (value : string) :
  Registry._resolve_environment_variables ∅ value = value.
Proof.
  assert (∀ name, Registry.getenv_or ∅ name value = value) as Hempty.
  { intros name. unfold Registry.getenv_or. by rewrite lookup_empty. }
  unfold Registry._resolve_environment_variables.
  destruct value as [|[[] [] [] [] [] [] [] []] rest]; apply Hempty.
Qed.

Lemma resolve_list_items environ (l : list Json.json) :
  Forall (λ item, ∀ s, item ≠ Json.JStr s) l →
  map (λ item, match item with
               | Json.JStr s => Json.JStr (Registry._resolve_environment_variables environ s)
               | _ => item
               end) l = l.
Proof.
  induction 1 as [|item rest Hitem _ IH]; simpl; [done|].
  rewrite IH. f_equal. destruct item; try done. by destruct (Hitem s).
Qed.

Lemma resolve_value_empty : ∀ v, Registry.resolve_value ∅ v = v.
Proof.
  fix IH 1. intros [ | b | z | q | s | l | items]; simpl; try reflexivity.
  - by rewrite resolve_string_empty.
  - f_equal. induction l as [|item rest IHl]; simpl; [done|].
    rewrite IHl. f_equal. destruct item; try done. by rewrite resolve_string_empty.
  - f_equal. revert items. fix IHitems 1. intros [|[k v] rest]; simpl; [done|].
    rewrite (IH v), (IHitems rest). done.
Qed.

(** X7: what the resolution of a catalog entry leaves alone.  Only a dict is
    resolved (anything else raises); the keys and their order are kept; a
    list none of whose items is a string is kept as it is, so a dict inside
    a list is not resolved; and when no environment variable is set the
    entry comes back unchanged. *)
Theorem resolve_model_data_keeps environ (model_data : Json.json) :
  (is_Some (Registry._resolve_model_data environ model_data)
   ↔ ∃ items, model_data = Json.JDict items)
  ∧ (∀ items resolved,
       Registry._resolve_model_data environ (Json.JDict items) = Some resolved →
       resolved.*1 = items.*1)
  ∧ (∀ l, Forall (λ item, ∀ s, item ≠ Json.JStr s) l →
       Registry.resolve_value environ (Json.JList l) = Json.JList l)
  ∧ (∀ items, Registry._resolve_model_data ∅ (Json.JDict items) = Some items).
Proof.
  split_and!.
  - split.
    + intros [items Hres]. destruct model_data; try discriminate Hres. by eexists.
    + intros [items ->]. by eexists.
  - intros items resolved [= <-]. induction items as [|[k v] rest IH]; [done|].
    simpl. f_equal. exact IH.
  - intros l Hl. simpl. by rewrite resolve_list_items.
  - intros items. simpl. f_equal.
    induction items as [|[k v] rest IH]; simpl; [done|].
    by rewrite resolve_value_empty, IH.
Qed.

Lemma resolve_model_data_keeps_witness :
  Registry.resolve_value {[ "REGION" := "westeurope" ]}
    (Json.JList [Json.JDict [("region", Json.JStr "$REGION")]; Json.JInt 3])
  = Json.JList [Json.JDict [("region", Json.JStr "$REGION")]; Json.JInt 3].
Proof.
  apply (proj1 (proj2 (proj2 (resolve_model_data_keeps {[ "REGION" := "westeurope" ]}
                                Json.JNull)))).
  repeat constructor; by intros s.
Defined.

(** ** The catalog: cost estimates *)

(** X8: the cost estimate of an unknown deployment is 0, and for a deployment
    whose prices per token are not negative the estimate of a request with
    non-negative token counts is not negative.  The cost the client charges
    after a chat call is this estimate taken at the actual prompt and
    completion tokens. *)
Theorem cost_estimate_nonnegative (r : Registry.ModelRegistry) (name : string)
    (input_tokens output_tokens : Z) :
  (Registry.get_model r name = None →
     Registry.get_model_cost_estimate r name input_tokens output_tokens = 0%Q)
  ∧ (∀ model,
       Registry.get_model r name = Some model →
       (0 <= Registry.input (Registry.cost_per_token model))%Q →
       (0 <= Registry.output (Registry.cost_per_token model))%Q →
       (0 <= input_tokens)%Z → (0 <= output_tokens)%Z →
       (0 <= Registry.get_model_cost_estimate r name input_tokens output_tokens)%Q)
  ∧ (∀ (self : Client.AzureOpenAIClient) (response : Client.BackendChat),
       Client.model_registry self = r →
       Client._calculate_chat_cost self name response
       = Registry.get_model_cost_estimate r name
           (Client.prompt_tokens response) (Client.completion_tokens response)).
Proof.
  unfold Registry.get_model_cost_estimate. split_and!.
  - by intros ->.
  - intros model -> Hin Hout Hi Ho.
    replace 0%Q with (0 + 0)%Q by reflexivity.
    apply Qplus_le_compat; apply Qmult_le_0_compat; try done.
    + unfold Qle. simpl. lia.
    + unfold Qle. simpl. lia.
  - intros self response <-. reflexivity.
Qed.

Lemma cost_estimate_nonnegative_witness :
  (0 <= Registry.get_model_cost_estimate Scenario.catalog "gpt-4o" 1000 500)%Q.
Proof.
  apply (proj1 (proj2 (cost_estimate_nonnegative Scenario.catalog "gpt-4o" 1000 500))
           Scenario.gpt4o eq_refl); by vm_compute.
Defined.

(** ** The catalog: scans and summary *)

Lemma elem_of_values (r : Registry.ModelRegistry) model :
  model ∈ Catalog.values r ↔ ∃ name, Registry.get_model r name = Some model.
Proof.
  unfold Catalog.values, Registry.get_model. rewrite list_elem_of_fmap. split.
  - intros ([name m] & -> & Hin). exists name. by apply elem_of_map_to_list.
  - intros [name Hget]. exists (name, model). split; [done|].
    by apply elem_of_map_to_list.
Qed.

Lemma update_model_health_status now (r : Registry.ModelRegistry) name status count model :
  Registry.get_model (Registry.update_model_health now r name status count) name
  = Some model →
  Registry.health_status model = status.
Proof.
  unfold Registry.update_model_health, Registry.get_model.
  destruct (Registry.models r !! name) as [m0|] eqn:Hm0; simpl.
  - rewrite lookup_insert_eq. by intros [= <-].
  - by rewrite Hm0.
Qed.

(** X9: the scans return exactly the matching entries of the catalog: the
    healthy ones, and the ones that list a capability.  After a health report
    for a deployment, its entry is among the healthy ones if and only if the
    reported status is "healthy". *)
Theorem scans_select_matching_entries (r : Registry.ModelRegistry) :
  (∀ model,
     model ∈ Catalog.get_healthy_models r
     ↔ Registry.health_status model = "healthy"
       ∧ ∃ name, Registry.get_model r name = Some model)
  ∧ (∀ capability model,
       model ∈ Catalog.get_models_by_capability r capability
       ↔ capability ∈ Registry.capabilities model
         ∧ ∃ name, Registry.get_model r name = Some model)
  ∧ (∀ now name status count model,
       Registry.get_model (Registry.update_model_health now r name status count) name
       = Some model →
       (model ∈ Catalog.get_healthy_models
                  (Registry.update_model_health now r name status count)
        ↔ status = "healthy")).
Proof.
  split_and!.
  - intros model. unfold Catalog.get_healthy_models.
    by rewrite list_elem_of_filter, elem_of_values.
  - intros capability model. unfold Catalog.get_models_by_capability.
    by rewrite list_elem_of_filter, elem_of_values.
  - intros now name status count model Hget.
    unfold Catalog.get_healthy_models. rewrite list_elem_of_filter, elem_of_values.
    pose proof (update_model_health_status now r name status count model Hget)
      as Hstatus.
    rewrite Hstatus. split; [by intros [? _]|]. intros ->. split; [done|by exists name].
Qed.

Lemma scans_select_matching_entries_witness :
  match Registry.get_model
          (Registry.update_model_health 4%Z Scenario.catalog "gpt-4o" "healthy" 0%Z) "gpt-4o"
  with
  | Some model =>
      model ∈ Catalog.get_healthy_models
                (Registry.update_model_health 4%Z Scenario.catalog "gpt-4o" "healthy" 0%Z)
  | None => False
  end.
Proof.
  destruct (Registry.get_model
              (Registry.update_model_health 4%Z Scenario.catalog "gpt-4o" "healthy" 0%Z)
              "gpt-4o") as [model|] eqn:Hget.
  - apply (proj2 (proj2 (scans_select_matching_entries Scenario.catalog))
             4%Z "gpt-4o" "healthy" 0%Z model Hget).
    reflexivity.
  - vm_compute in Hget. discriminate Hget.
Defined.

Lemma scan_length_le_size (r : Registry.ModelRegistry) (P : Registry.ModelInfo → Prop)
    `{∀ m, Decision (P m)} :
  (length (filter P (Catalog.values r)) ≤ size (Registry.models r))%nat.
Proof.
  etrans; [apply length_filter|]. unfold Catalog.values.
  by rewrite length_fmap, length_map_to_list.
Qed.

Lemma elem_of_all_capabilities (r : Registry.ModelRegistry) capability :
  capability ∈ Catalog.all_capabilities r
  ↔ ∃ model, model ∈ Catalog.values r ∧ capability ∈ Registry.capabilities model.
Proof.
  unfold Catalog.all_capabilities. rewrite elem_of_union_list. split.
  - intros (X & HX & Hin). apply list_elem_of_fmap in HX as (model & -> & Hm).
    exists model. split; [done|]. by apply elem_of_list_to_set in Hin.
  - intros (model & Hm & Hin). exists (list_to_set (Registry.capabilities model)).
    split; [|by apply elem_of_list_to_set].
    apply list_elem_of_fmap. by exists model.
Qed.

(** X10: the counts of the registry summary are consistent.  The number of
    healthy deployments is at most the total; a capability is listed in
    [models_by_capability] exactly when some deployment has it, and then with
    the number of deployments that have it, which is at least 1 and at most
    the total. *)
Theorem registry_summary_counts (r : Registry.ModelRegistry) :
  let summary := Catalog.get_registry_summary r in
  (Catalog.healthy_models summary ≤ Catalog.total_models summary)%nat
  ∧ ∀ capability,
      match Catalog.models_by_capability summary !! capability with
      | Some n =>
          n = length (Catalog.get_models_by_capability r capability)
          ∧ (1 ≤ n ≤ Catalog.total_models summary)%nat
      | None => Catalog.get_models_by_capability r capability = []
      end.
Proof.
  simpl. split; [apply scan_length_le_size|].
  intros capability.
  assert (∀ y y' : string,
            y ∈ Catalog.all_capabilities r → y' ∈ Catalog.all_capabilities r →
            (y, length (Catalog.get_models_by_capability r y)).1
            = (y', length (Catalog.get_models_by_capability r y')).1 → y = y') as Hinj
    by (by intros y y' _ _).
  destruct (set_to_map _ _ !! capability) as [n|] eqn:Hn.
  - apply lookup_set_to_map in Hn as (c & Hc & [= -> <-]); [|exact Hinj].
    split; [done|]. split; [|apply scan_length_le_size].
    apply elem_of_all_capabilities in Hc as (model & Hm & Hcap).
    assert (model ∈ Catalog.get_models_by_capability r capability) as Hin.
    { unfold Catalog.get_models_by_capability. by apply list_elem_of_filter. }
    destruct (Catalog.get_models_by_capability r capability); [|simpl; lia].
    by apply elem_of_nil in Hin.
  - apply elem_of_nil_inv. intros model Hin.
    unfold Catalog.get_models_by_capability in Hin.
    apply list_elem_of_filter in Hin as [Hcap Hm].
    assert (capability ∈ Catalog.all_capabilities r) as Hc
      by (apply elem_of_all_capabilities; by exists model).
    assert (set_to_map (M := gmap string nat)
              (λ c, (c, length (Catalog.get_models_by_capability r c)))
              (Catalog.all_capabilities r) !! capability
            = Some (length (Catalog.get_models_by_capability r capability))) as Hsome.
    { apply lookup_set_to_map; [exact Hinj|]. by exists capability. }
    rewrite Hn in Hsome. discriminate Hsome.
Qed.

(** ** The ledger and the budget gate *)

Lemma current_spend_record_same (month : string) (mgr : Policies.RoutingPolicyManager)
    tenant amount :
  Policies.current_spend (Policies.record_usage_cost month mgr tenant amount) tenant month
  = (Policies.current_spend mgr tenant month + amount)%Q.
Proof.
  rewrite current_spend_record. by destruct (decide _) as [_|[]].
Qed.

Lemma current_spend_record_other (month : string) (mgr : Policies.RoutingPolicyManager)
    tenant amount tenant' month' :
  tenant' ≠ tenant ∨ month' ≠ month →
  Policies.current_spend (Policies.record_usage_cost month mgr tenant amount) tenant' month'
  = Policies.current_spend mgr tenant' month'.
Proof.
  intros Hne. rewrite current_spend_record.
  destruct (decide _) as [[-> ->]|_]; [by destruct Hne|done].
Qed.

(** X11: the ledger is the running sum of the reports.  After a sequence
    of reports for a tenant its spend of the month is what one gets by adding
    the amounts to the spend before one by one, in the order of the reports;
    when no amount is negative the spend has not gone down; the spend of
    every other tenant and the policies are as before. *)
Theorem recorded_spend_is_sum (month : string) (mgr : Policies.RoutingPolicyManager)
    (tenant : string) (amounts : list Q) :
  let mgr' := Inv.record_all month mgr tenant amounts in
  Policies.current_spend mgr' tenant month
  = Inv.running_total (Policies.current_spend mgr tenant month) amounts
  ∧ (Forall (λ amount, (0 <= amount)%Q) amounts →
       (Policies.current_spend mgr tenant month
        <= Policies.current_spend mgr' tenant month)%Q)
  ∧ (∀ other, other ≠ tenant →
       Policies.current_spend mgr' other month = Policies.current_spend mgr other month)
  ∧ Policies.policies mgr' = Policies.policies mgr.
Proof.
  simpl. revert mgr. induction amounts as [|amount rest IH]; intros mgr.
  - simpl. split_and!; try done; lra.
  - simpl. destruct (IH (Policies.record_usage_cost month mgr tenant amount))
      as (Hsum & Hmono & Hother & Hpol).
    rewrite current_spend_record_same in Hsum, Hmono.
    unfold Inv.record_all, Inv.running_total in *. split_and!.
    + exact Hsum.
    + intros Hall. inversion Hall as [|? ? Ha Hrest]; subst.
      specialize (Hmono Hrest). lra.
    + intros other Hne. rewrite Hother by done.
      apply current_spend_record_other. by left.
    + by rewrite Hpol.
Qed.

Lemma recorded_spend_is_sum_witness :
  (Policies.current_spend (Scenario.store Scenario.policy 10) "default" Scenario.month
   <= Policies.current_spend
        (Inv.record_all Scenario.month (Scenario.store Scenario.policy 10) "default"
           [(1 # 2)%Q; 3%Q])
        "default" Scenario.month)%Q.
Proof.
  apply (proj1 (proj2 (recorded_spend_is_sum Scenario.month
                         (Scenario.store Scenario.policy 10) "default" [(1 # 2)%Q; 3%Q]))).
  repeat constructor; by vm_compute.
Defined.

(** X12: once the budget gate of a tenant has closed it stays closed while
    spend is recorded.  If the check fails for a tenant, policy and override,
    it still fails after any non-negative amount is recorded, for that tenant
    or another one; and recording for another tenant never changes the
    outcome of the check. *)
Theorem budget_gate_stays_closed (month : string) (mgr : Policies.RoutingPolicyManager)
    (tenant payer : string) (policy : Policies.RoutingPolicy)
    (budget_override : option Q) (amount : Q) :
  let mgr' := Policies.record_usage_cost month mgr payer amount in
  ((0 <= amount)%Q →
     Policies._check_budget_constraints month mgr tenant policy budget_override = false →
     Policies._check_budget_constraints month mgr' tenant policy budget_override = false)
  ∧ (payer ≠ tenant →
       Policies._check_budget_constraints month mgr' tenant policy budget_override
       = Policies._check_budget_constraints month mgr tenant policy budget_override).
Proof.
  simpl. split.
  - intros Hamount Hclosed.
    destruct (Policies._check_budget_constraints month
                (Policies.record_usage_cost month mgr payer amount)
                tenant policy budget_override) eqn:Hopen; [|done].
    apply check_budget_iff in Hopen.
    assert (¬ (Policies._check_budget_constraints month mgr tenant policy budget_override
               = true)) as Hnot by by rewrite Hclosed.
    rewrite check_budget_iff in Hnot. exfalso. apply Hnot.
    destruct Hopen as [Hoff|Hlt]; [by left|]. right.
    rewrite current_spend_record in Hlt.
    destruct (decide _) as [[-> _]|_]; [lra|done].
  - intros Hne. unfold Policies._check_budget_constraints.
    by rewrite current_spend_record_other by by left.
Qed.

Lemma budget_gate_stays_closed_witness :
  Policies._check_budget_constraints Scenario.month
    (Policies.record_usage_cost Scenario.month (Scenario.store Scenario.policy 90)
       "default" (5 # 2)%Q)
    "default" Scenario.policy None = false.
Proof.
  apply (proj1 (budget_gate_stays_closed Scenario.month (Scenario.store Scenario.policy 90)
                  "default" "default" Scenario.policy None (5 # 2)%Q)); by vm_compute.
Defined.

(** ** The policy manager's own selection *)

Ltac split_selection H :=
  repeat match type of H with
         | context [if ?c then _ else _] => destruct c eqn:?; simpl in H
         end;
  try discriminate H; injection H as <-;
  repeat match goal with
         | Hand : _ && _ = true |- _ => apply andb_true_iff in Hand as [? ?]
         end;
  (split; [assumption|eauto]).

(** X13: what [select_model] can return.  Without a policy for the tenant
    and without a default policy for the feature it returns nothing.  A name
    it returns belongs to the chain of the policy in force (the tenant's, else
    the default one), has passed capability validation, and is the budget
    fallback only when the budget check failed: unlike the router, the
    manager does not fall back to the budget fallback as a last resort. *)
Theorem select_model_sound (month : string) (registry : Registry.ModelRegistry)
    (self : Policies.RoutingPolicyManager) (tenant feat : string)
    (required : option (list string)) (quality : option bool) (budget_override : option Q) :
  let result :=
    PolicyQueries.select_model month registry self tenant feat required quality
      budget_override in
  (Policies.get_policy self tenant feat = None →
     Policies.get_default_policy self feat = None → result = None)
  ∧ (∀ name, result = Some name →
       ∃ policy,
         (Policies.get_policy self tenant feat = Some policy
          ∨ (Policies.get_policy self tenant feat = None
             ∧ Policies.get_default_policy self feat = Some policy))
         ∧ PolicyQueries.validate_optional registry name required = true
         ∧ (name = Policies.primary (Policies.model_selection_rules policy)
            ∨ Policies.fallback (Policies.model_selection_rules policy) = Some name
            ∨ (Policies.budget_fallback (Policies.model_selection_rules policy) = Some name
               ∧ Policies._check_budget_constraints month self tenant policy budget_override
                 = false))).
Proof.
  simpl. unfold PolicyQueries.select_model. split.
  - by intros -> ->.
  - intros name H.
    destruct (Policies.get_policy self tenant feat) as [policy|] eqn:Hp;
      [|destruct (Policies.get_default_policy self feat) as [policy|] eqn:Hd; [|done]];
      exists policy; (split; [eauto|]);
      destruct (Policies._check_budget_constraints month self tenant policy budget_override)
        eqn:Hgate; simpl in H;
      destruct (Policies.budget_fallback (Policies.model_selection_rules policy))
        as [b|] eqn:Hb;
      destruct (Policies.fallback (Policies.model_selection_rules policy))
        as [f|] eqn:Hf; simpl in H;
      split_selection H.
Qed.

Lemma select_model_sound_witness :
  PolicyQueries.validate_optional Scenario.catalog "gpt-35-turbo" (Some ["chat"]) = true.
Proof.
  destruct (proj2 (select_model_sound Scenario.month Scenario.catalog
                     (Scenario.store Scenario.policy 90) "default" "chat"
                     (Some ["chat"]) None None) "gpt-35-turbo" eq_refl)
    as (policy & _ & Hvalid & _).
  exact Hvalid.
Defined.

(** ** The budget status *)

Lemma sum_budgets_nonnegative (ps : list Policies.RoutingPolicy) (acc : Q) :
  (0 <= acc)%Q →
  Forall (λ p, (0 <= Policies.monthly_budget (Policies.budget_constraints p))%Q) ps →
  (0 <= foldl (λ acc p, (acc + Policies.monthly_budget (Policies.budget_constraints p))%Q)
          acc ps)%Q.
Proof.
  intros Hacc Hall. revert acc Hacc.
  induction Hall as [|p rest Hp _ IH]; intros acc Hacc; simpl; [done|].
  apply IH. lra.
Qed.

(** X14: the budget status of a tenant.  The utilisation is 0 whenever the
    tenant's total budget is not positive, so nothing is divided by zero.  A
    tenant without any policy has a total budget of 0, a utilisation of 0 and
    a remaining budget equal to minus its spend.  When no policy has a
    negative budget the total is not negative. *)
Theorem budget_status_edges (month : string) (self : Policies.RoutingPolicyManager)
    (tenant : string) :
  let status := PolicyQueries.get_budget_status month self tenant in
  (¬ (0 < PolicyQueries.total_monthly_budget status)%Q →
     PolicyQueries.utilization_percentage status = 0%Q)
  ∧ ((∀ key policy, Policies.policies self !! key = Some policy →
        Policies.tenant_id policy ≠ tenant) →
       PolicyQueries.total_monthly_budget status = 0%Q
       ∧ PolicyQueries.utilization_percentage status = 0%Q
       ∧ (PolicyQueries.remaining_budget status
          == - Policies.current_spend self tenant month)%Q)
  ∧ ((∀ key policy, Policies.policies self !! key = Some policy →
        (0 <= Policies.monthly_budget (Policies.budget_constraints policy))%Q) →
       (0 <= PolicyQueries.total_monthly_budget status)%Q).
Proof.
  simpl. split_and!.
  - intros Hnot. destruct (Py.ltb 0 _) eqn:Hlt; [|done].
    apply ltb_lt in Hlt. contradiction.
  - intros Hnone.
    assert (PolicyQueries.tenant_policies self tenant = []) as ->.
    { apply elem_of_nil_inv. intros p Hin. unfold PolicyQueries.tenant_policies in Hin.
      apply list_elem_of_filter in Hin as [Ht Hin].
      apply list_elem_of_fmap in Hin as ([key p'] & -> & Hin).
      apply elem_of_map_to_list in Hin. by apply (Hnone key p'). }
    unfold PolicyQueries.sum_budgets. change (foldl _ 0%Q []) with 0%Q.
    split_and!; [done|done|lra].
  - intros Hall. apply sum_budgets_nonnegative; [done|].
    apply Forall_forall. intros p Hin. unfold PolicyQueries.tenant_policies in Hin.
    apply list_elem_of_filter in Hin as [_ Hin].
    apply list_elem_of_fmap in Hin as ([key p'] & -> & Hin).
    apply elem_of_map_to_list in Hin. by apply (Hall key p').
Qed.

Lemma budget_status_edges_witness :
  PolicyQueries.total_monthly_budget
    (PolicyQueries.get_budget_status Scenario.month (Scenario.store Scenario.policy 10) "acme")
  = 0%Q.
Proof.
  apply (proj1 (proj2 (budget_status_edges Scenario.month
                         (Scenario.store Scenario.policy 10) "acme"))).
  intros key policy. unfold Scenario.store. simpl.
  rewrite lookup_singleton. destruct (decide _); [|done]. by intros [= <-].
Defined.

(** ** The keys of the policy store *)

Lemma append_nil (s : string) : "" +:+ s = s.
Proof. reflexivity. Qed.

Lemma append_cons (c : ascii) (r s : string) : String c r +:+ s = String c (r +:+ s).
Proof. reflexivity. Qed.

Lemma policy_key_injective tenant feat tenant' feat' :
  Inv.no_colon tenant = true → Inv.no_colon tenant' = true →
  Policies.policy_key tenant feat = Policies.policy_key tenant' feat' →
  tenant = tenant' ∧ feat = feat'.
Proof.
  unfold Policies.policy_key. revert tenant'.
  induction tenant as [|c rest IH]; intros [|c' rest'] Ht Ht' Heq;
    rewrite ?append_cons, ?append_nil in Heq; simpl in Ht, Ht'.
  - by injection Heq as ->.
  - injection Heq as <- _. by rewrite Ascii.eqb_refl in Ht'.
  - injection Heq as -> _. by rewrite Ascii.eqb_refl in Ht.
  - apply andb_true_iff in Ht as [_ Hr]. apply andb_true_iff in Ht' as [_ Hr'].
    injection Heq as -> Heq.
    assert (rest +:+ ":" +:+ feat = rest' +:+ ":" +:+ feat') as Heq'
      by by rewrite ?append_cons, ?append_nil.
    destruct (IH rest' Hr Hr' Heq') as [-> ->]. done.
Qed.

Lemma load_entries_keyed now (entries : list Json.json)
    (acc : gmap string Policies.RoutingPolicy) :
  map_Forall (λ key policy,
      key = Policies.policy_key (Policies.tenant_id policy) (Policies.feature policy)) acc →
  map_Forall (λ key policy,
      key = Policies.policy_key (Policies.tenant_id policy) (Policies.feature policy))
    (Policies.load_entries now entries acc).
Proof.
  revert acc. induction entries as [|policy_data rest IH]; intros acc Hacc; simpl; [done|].
  destruct (Policies._create_routing_policy now policy_data) as [policy|]; [|done].
  apply IH. by apply map_Forall_insert_2.
Qed.

(** X15: after a load from a well-typed decoded file every policy is
    stored under the key made of its own tenant and feature, and the ledger
    is the one from before the load.  So as long as tenant names contain no
    colon, a lookup by tenant and feature returns only a policy of that
    tenant and feature. *)
Theorem loaded_policies_keyed (now : timestamp) (config : Json.json)
    (mgr : Policies.RoutingPolicyManager) :
  let mgr' := Policies.load_policies now (Json.Contents config) mgr in
  Typed.routing_policies config = true →
  Inv.keyed_policies mgr'
  ∧ Policies.budget_tracker mgr' = Policies.budget_tracker mgr
  ∧ (∀ tenant feat policy,
       Policies.get_policy mgr' tenant feat = Some policy →
       Inv.no_colon tenant = true →
       Inv.no_colon (Policies.tenant_id policy) = true →
       Policies.tenant_id policy = tenant ∧ Policies.feature policy = feat).
Proof.
  simpl. intros _.
  assert (Inv.keyed_policies (Policies.load_policies now (Json.Contents config) mgr))
    as Hkeyed.
  { unfold Inv.keyed_policies, Policies.load_policies. simpl.
    destruct (Json.get config "routing_policies" (Json.JList []) ≫= Json.iter)
      as [entries|]; [|by intros key policy].
    apply (load_entries_keyed now entries ∅). apply map_Forall_empty. }
  split_and!; [done|done|].
  intros tenant feat policy Hget Ht Hp.
  apply Hkeyed in Hget. symmetry in Hget.
  by destruct (policy_key_injective _ _ _ _ Hp Ht Hget) as [-> ->].
Qed.

Lemma loaded_policies_keyed_witness :
  let mgr' :=
    Policies.load_policies 2%Z (Json.Contents GoodSource.config)
      (Scenario.store Scenario.policy 10) in
  Policies.tenant_id <$> Policies.get_policy mgr' "acme" "qa" = Some "acme".
Proof.
  intros mgr'. subst mgr'.
  destruct (Policies.get_policy _ "acme" "qa") as [policy|] eqn:Hget.
  - destruct (proj2 (proj2 (loaded_policies_keyed 2%Z GoodSource.config
                              (Scenario.store Scenario.policy 10) eq_refl))
                "acme" "qa" policy Hget eq_refl) as [Ht _].
    + vm_compute in Hget. injection Hget as <-. reflexivity.
    + simpl. by rewrite Ht.
  - vm_compute in Hget. discriminate Hget.
Defined.

(** ** The performance check *)

Lemma latency_level_nonnegative s : (0 <= latency_level s)%Z.
Proof. destruct (latency_level_cases s) as [[_ ->]|[[_ ->]|[[_ ->]|[[_ ->]|[_ ->]]]]]; lia. Qed.

(** X16: the latency comparison orders the classes.  Every class meets
    itself, meeting is transitive, of two classes one meets the other, a
    "very_low" deployment meets every requirement and every deployment meets
    the requirement "high". *)
Theorem latency_requirement_order (a b c : string) :
  Router._meets_latency_requirement a a = true
  ∧ (Router._meets_latency_requirement a b = true →
     Router._meets_latency_requirement b c = true →
     Router._meets_latency_requirement a c = true)
  ∧ (Router._meets_latency_requirement a b = true
     ∨ Router._meets_latency_requirement b a = true)
  ∧ Router._meets_latency_requirement "very_low" a = true
  ∧ Router._meets_latency_requirement a "high" = true.
Proof.
  rewrite !meets_latency_levels, !Z.leb_le.
  pose proof (latency_level_nonnegative a). pose proof (latency_level_le_high a).
  change (latency_level "very_low") with 0%Z. change (latency_level "high") with 3%Z.
  split_and!; lia.
Qed.

Lemma latency_requirement_order_witness :
  Router._meets_latency_requirement "low" "high" = true.
Proof.
  apply (proj1 (proj2 (latency_requirement_order "low" "medium" "high"))); reflexivity.
Defined.

(** X17: the performance check, case by case.  A deployment that is not in
    the catalog fails it, even when the request asks for nothing.  For a
    deployment of the catalog the check passes exactly when the latency
    requirement is absent, empty or met by the deployment's class, and the
    context estimate is absent, zero or at most the deployment's context
    length. *)
Theorem performance_check_cases (self : Router.IntelligentRouter) (name : string)
    (request : Router.RoutingRequest) :
  (Registry.get_model (Router.model_registry self) name = None →
     Router._check_performance_requirements self name request = false)
  ∧ (∀ model,
       Registry.get_model (Router.model_registry self) name = Some model →
       (Router._check_performance_requirements self name request = true
        ↔ match Router.latency_requirement request with
          | Some required =>
              required = ""
              ∨ Router._meets_latency_requirement
                  (Registry.latency (Registry.performance_metrics model)) required = true
          | None => True
          end
          ∧ match Router.context_length_estimate request with
            | Some estimate =>
                estimate = 0%Z
                ∨ (estimate <= Registry.context_length (Registry.performance_metrics model))%Z
            | None => True
            end)).
Proof.
  unfold Router._check_performance_requirements. split.
  - by intros ->.
  - intros model ->.
    destruct (Router.latency_requirement request) as [required|];
      destruct (Router.context_length_estimate request) as [estimate|];
      unfold Py.str_truthy, Py.int_truthy;
      repeat case_bool_decide; simpl;
      repeat match goal with
             | |- context [Router._meets_latency_requirement ?x ?y] =>
                 destruct (Router._meets_latency_requirement x y); simpl
             | |- context [(?x >? ?y)%Z] =>
                 destruct (Z.gtb_spec x y); simpl
             end;
      split; try done; try (intros [? ?]); try (split; auto; fail);
      repeat match goal with
             | Hor : _ ∨ _ |- _ => destruct Hor
             end; try done; try lia;
      split; auto; right; lia.
Qed.

Lemma performance_check_cases_witness :
  Router._check_performance_requirements
    (Scenario.router Scenario.catalog Scenario.policy 0) "claude-x" (Scenario.request [])
  = false.
Proof.
  apply (proj1 (performance_check_cases
                  (Scenario.router Scenario.catalog Scenario.policy 0) "claude-x"
                  (Scenario.request []))).
  reflexivity.
Defined.

(** ** What [route_request] selects *)

Lemma order_names (rules : Policies.ModelSelectionRules) c :
  c ∈ Order.quality_order rules ∨ c ∈ Order.cost_order rules →
  Order.cand_name c = Policies.primary rules
  ∨ Policies.fallback rules = Some (Order.cand_name c)
  ∨ Policies.budget_fallback rules = Some (Order.cand_name c).
Proof.
  unfold Order.quality_order, Order.cost_order.
  rewrite !elem_of_app, !list_elem_of_singleton.
  intros [[->|[Hf|Hb]]|[Hf|[->|Hb]]];
    try (by left);
    try (right; left; by apply optional_member in Hf as [? _]);
    right; right; by apply optional_member in Hb as [? _].
Qed.

(** A name returned by [_select_optimal_model] has passed capability
    validation and is one of the three names of the chain. *)
Lemma select_optimal_sound (month : string) (self : Router.IntelligentRouter)
    request policy name :
  Router._select_optimal_model month self request policy = Some name →
  Router._validate_model_capabilities self name (Router.required_capabilities request) = true
  ∧ (name = Policies.primary (Policies.model_selection_rules policy)
     ∨ Policies.fallback (Policies.model_selection_rules policy) = Some name
     ∨ Policies.budget_fallback (Policies.model_selection_rules policy) = Some name).
Proof.
  assert (∀ cs,
            cs = Order.quality_order (Policies.model_selection_rules policy)
            ∨ cs = Order.cost_order (Policies.model_selection_rules policy) →
            Order.first_passing self request cs = Some name →
            Router._validate_model_capabilities self name
              (Router.required_capabilities request) = true
            ∧ (name = Policies.primary (Policies.model_selection_rules policy)
               ∨ Policies.fallback (Policies.model_selection_rules policy) = Some name
               ∨ Policies.budget_fallback (Policies.model_selection_rules policy)
                 = Some name)) as Hpref.
  { intros cs Hcs Hsel.
    apply first_passing_some in Hsel as (before & c & after & -> & <- & Hpass & _).
    split.
    - unfold Order.passes in Hpass. by apply andb_true_iff in Hpass as [? _].
    - apply order_names. destruct Hcs as [<-|<-]; [left|right]; set_solver. }
  unfold Router._select_optimal_model.
  rewrite quality_model_first_passing, cost_model_first_passing.
  intros Hsel.
  assert (∀ o : option string,
            o = (if match Router.quality_priority request with
                    | Some b => b
                    | None => Policies.quality_priority (Policies.feature_flags policy)
                    end
                 then Order.first_passing self request
                        (Order.quality_order (Policies.model_selection_rules policy))
                 else Order.first_passing self request
                        (Order.cost_order (Policies.model_selection_rules policy))) →
            o = Some name →
            Router._validate_model_capabilities self name
              (Router.required_capabilities request) = true
            ∧ (name = Policies.primary (Policies.model_selection_rules policy)
               ∨ Policies.fallback (Policies.model_selection_rules policy) = Some name
               ∨ Policies.budget_fallback (Policies.model_selection_rules policy)
                 = Some name)) as Hby.
  { intros o -> Ho.
    destruct (match Router.quality_priority request with Some b => b | None => _ end);
      [apply (Hpref _ (or_introl eq_refl) Ho)|apply (Hpref _ (or_intror eq_refl) Ho)]. }
  destruct (negb _); [|by apply (Hby _ eq_refl)].
  destruct (Policies.budget_fallback (Policies.model_selection_rules policy))
    as [b|] eqn:Hb; [|by apply (Hby _ eq_refl)].
  destruct (Py.str_truthy b && _) eqn:Hok; [|by apply (Hby _ eq_refl)].
  injection Hsel as <-. apply andb_true_iff in Hok as [_ Hv]. split; [done|]. by do 2 right.
Qed.

Lemma selected_validated (now : timestamp) (month : string)
    (self : Router.IntelligentRouter) (request : Router.RoutingRequest) :
  Router.selected_model (Router.route_request now month self request).1 ≠ "" →
  Router._validate_model_capabilities self
    (Router.selected_model (Router.route_request now month self request).1)
    (Router.required_capabilities request) = true.
Proof.
  intros Hne.
  destruct (Router.override_accepted self request) as [name|] eqn:Hov.
  - rewrite (route_override_accepted now month self request name Hov). simpl.
    by apply override_accepted_iff in Hov as (_ & _ & ?).
  - pose proof (route_policy_cases now month self request Hov) as Hc. simpl in Hc.
    destruct (Router.resolve_policy self request) as [policy|];
      [|by rewrite Hc in Hne].
    unfold selection in Hc.
    destruct (Router._select_optimal_model month self request policy)
      as [selected|] eqn:Hsel; [|by rewrite Hc in Hne].
    destruct (Py.str_truthy selected); [|by rewrite Hc in Hne].
    rewrite Hc. simpl. by apply (select_optimal_sound month self request policy).
Qed.

(** X18: a deployment that is selected has passed capability validation,
    whether it comes from a user override or from a policy.  So for a request
    with at least one required capability the selected deployment, if any, is
    in the catalog, is healthy and has every required capability: a
    deployment that is unknown or not healthy is never selected for such a
    request. *)
Theorem selected_deployment_is_usable (now : timestamp) (month : string)
    (self : Router.IntelligentRouter) (request : Router.RoutingRequest) :
  let d := (Router.route_request now month self request).1 in
  (Router.selected_model d ≠ "" →
     Router._validate_model_capabilities self (Router.selected_model d)
       (Router.required_capabilities request) = true)
  ∧ (Router.selected_model d ≠ "" →
     Router.required_capabilities request ≠ [] →
     Spec.usable (Router.model_registry self) (Router.selected_model d)
       (Router.required_capabilities request)).
Proof.
  intros d.
  pose proof (selected_validated now month self request) as Hvalid. fold d in Hvalid.
  split; [done|]. intros Hne Hcaps. specialize (Hvalid Hne).
  rewrite validate_same in Hvalid.
  destruct (Router.required_capabilities request) as [|cap rest]; [done|].
  by apply validate_required.
Qed.

Lemma selected_deployment_is_usable_witness :
  Spec.usable Scenario.catalog "gpt-4o" ["chat"].
Proof.
  apply (proj2 (selected_deployment_is_usable 0%Z Scenario.month
                  (Scenario.router Scenario.catalog Scenario.policy 0)
                  (Scenario.request ["chat"]))); discriminate.
Defined.

(** X19: a decision made under a policy names a deployment of that policy's
    chain.  When no user override is accepted and a deployment is selected,
    it is the primary, the fallback or the budget fallback of the policy in
    force, and the decision's latency class and cost are the ones the catalog
    gives for that deployment. *)
Theorem policy_decision_from_chain (now : timestamp) (month : string)
    (self : Router.IntelligentRouter) (request : Router.RoutingRequest)
    (policy : Policies.RoutingPolicy) :
  let d := (Router.route_request now month self request).1 in
  Router.override_accepted self request = None →
  Router.resolve_policy self request = Some policy →
  Router.selected_model d ≠ "" →
  (Router.selected_model d = Policies.primary (Policies.model_selection_rules policy)
   ∨ Policies.fallback (Policies.model_selection_rules policy)
     = Some (Router.selected_model d)
   ∨ Policies.budget_fallback (Policies.model_selection_rules policy)
     = Some (Router.selected_model d))
  ∧ Router.estimated_latency d = Router.latency_or_unknown self (Router.selected_model d)
  ∧ Router.budget_impact d
    = Router._estimate_request_cost self (Router.selected_model d) request.
Proof.
  intros d Hov Hpol Hne. subst d.
  pose proof (route_policy_cases now month self request Hov) as Hc. simpl in Hc.
  rewrite Hpol in Hc. unfold selection in Hc.
  destruct (Router._select_optimal_model month self request policy)
    as [selected|] eqn:Hsel; [|by rewrite Hc in Hne].
  destruct (Py.str_truthy selected); [|by rewrite Hc in Hne].
  rewrite Hc. simpl. split; [|done].
  by apply (select_optimal_sound month self request policy).
Qed.

Lemma policy_decision_from_chain_witness :
  let d :=
    (Router.route_request 0%Z Scenario.month
       (Scenario.router Scenario.catalog Scenario.policy 0) (Scenario.request ["chat"])).1 in
  Router.estimated_latency d = "medium".
Proof.
  intros d.
  destruct (policy_decision_from_chain 0%Z Scenario.month
              (Scenario.router Scenario.catalog Scenario.policy 0)
              (Scenario.request ["chat"]) Scenario.policy eq_refl eq_refl)
    as (_ & Hlat & _); [discriminate|].
  subst d. rewrite Hlat. reflexivity.
Defined.

(** ** Routing and the usage tracker *)

Lemma route_ignores_tracker (now now' : timestamp) (month : string)
    (self : Router.IntelligentRouter) tracker request :
  (Router.route_request now' month (Inv.with_tracker self tracker) request).1
  = (Router.route_request now month self request).1.
Proof.
  unfold Router.route_request.
  change (Router.override_accepted (Inv.with_tracker self tracker) request)
    with (Router.override_accepted self request).
  change (Router.resolve_policy (Inv.with_tracker self tracker) request)
    with (Router.resolve_policy self request).
  destruct (Router.override_accepted self request) as [name|]; [done|].
  destruct (Router.resolve_policy self request) as [policy|]; [|done].
  change (Router._select_optimal_model month (Inv.with_tracker self tracker) request policy)
    with (Router._select_optimal_model month self request policy).
  destruct (Router._select_optimal_model month self request policy) as [selected|]; [|done].
  by destruct (Py.str_truthy selected).
Qed.

Lemma route_result_tracker (now : timestamp) (month : string)
    (self : Router.IntelligentRouter) request :
  (Router.route_request now month self request).2
  = Inv.with_tracker self
      (Router.usage_tracker (Router.route_request now month self request).2).
Proof.
  unfold Router.route_request.
  destruct (Router.override_accepted self request) as [name|]; [by destruct self|].
  destruct (Router.resolve_policy self request) as [policy|]; [|by destruct self].
  destruct (Router._select_optimal_model month self request policy) as [selected|];
    [|by destruct self].
  destruct (Py.str_truthy selected); [done|by destruct self].
Qed.

Lemma ltb_proper (a a' b : Q) : (a' == a)%Q → Py.ltb a' b = Py.ltb a b.
Proof.
  intros Heq. destruct (Py.ltb a b) eqn:Hab.
  - apply ltb_lt. apply ltb_lt in Hab. by rewrite Heq.
  - destruct (Py.ltb a' b) eqn:Hab'; [|done].
    apply ltb_lt in Hab'. rewrite Heq in Hab'. apply ltb_lt in Hab'. congruence.
Qed.

Lemma check_budget_month (month month' : string) (self : Router.IntelligentRouter)
    tenant policy budget_override :
  (Policies.current_spend (Router.routing_policy_manager self) tenant month'
   == Policies.current_spend (Router.routing_policy_manager self) tenant month)%Q →
  Router._check_budget_constraints month' self tenant policy budget_override
  = Router._check_budget_constraints month self tenant policy budget_override.
Proof.
  intros Heq. unfold Router._check_budget_constraints.
  destruct (negb _); [done|]. by apply ltb_proper.
Qed.

Lemma route_month_spend (now now' : timestamp) (month month' : string)
    (self : Router.IntelligentRouter) request :
  (Policies.current_spend (Router.routing_policy_manager self)
     (Router.tenant_id request) month'
   == Policies.current_spend (Router.routing_policy_manager self)
        (Router.tenant_id request) month)%Q →
  (Router.route_request now' month' self request).1
  = (Router.route_request now month self request).1.
Proof.
  intros Heq. unfold Router.route_request.
  destruct (Router.override_accepted self request) as [name|]; [done|].
  destruct (Router.resolve_policy self request) as [policy|]; [|done].
  assert (Router._select_optimal_model month' self request policy
          = Router._select_optimal_model month self request policy) as ->.
  { unfold Router._select_optimal_model.
    by rewrite (check_budget_month month month' self _ policy _ Heq). }
  destruct (Router._select_optimal_model month self request policy) as [selected|]; [|done].
  by destruct (Py.str_truthy selected).
Qed.

(** With 90 spent in 2026-11 and nothing recorded for 2026-12, the same
    request gets the budget fallback in November and the primary in
    December. *)
Example route_request_month_matters :
  let self := Scenario.router Scenario.catalog Scenario.policy 90 in
  Router.selected_model
    (Router.route_request 0%Z "2026-11" self (Scenario.request ["chat"])).1
  = "gpt-35-turbo"
  ∧ Router.selected_model
      (Router.route_request 0%Z "2026-12" self (Scenario.request ["chat"])).1
    = "gpt-4o".
Proof. by vm_compute. Qed.

(** X20: routing reads the catalog and the policies and writes only the
    usage tracker.  The router after a call has the same catalog and the same
    policy manager (with its ledger).  The decision does not depend on the
    usage tracker, and it depends on the clock only through the spend the
    ledger holds for the tenant in the month of the call: routing the same
    request again, with no report in between, gives the same decision
    whenever the tenant's recorded spend for the month of the second call
    equals the one for the month of the first, so always within one month.
    Across a change of month the spend that is read can differ, and the
    decision with it. *)
Theorem route_request_frame (now now' : timestamp) (month month' : string)
    (self : Router.IntelligentRouter) (request : Router.RoutingRequest) :
  let d := (Router.route_request now month self request).1 in
  let self' := (Router.route_request now month self request).2 in
  Router.model_registry self' = Router.model_registry self
  ∧ Router.routing_policy_manager self' = Router.routing_policy_manager self
  ∧ (∀ tracker,
       (Router.route_request now' month (Inv.with_tracker self tracker) request).1 = d)
  ∧ ((Policies.current_spend (Router.routing_policy_manager self)
        (Router.tenant_id request) month'
      == Policies.current_spend (Router.routing_policy_manager self)
           (Router.tenant_id request) month)%Q →
     (Router.route_request now' month' self' request).1 = d).
Proof.
  intros d self'. subst d self'.
  pose proof (route_result_tracker now month self request) as Hres.
  split_and!.
  - by rewrite Hres.
  - by rewrite Hres.
  - intros tracker. apply route_ignores_tracker.
  - intros Heq. rewrite Hres.
    rewrite (route_ignores_tracker now' now' month' self _ request).
    by apply route_month_spend.
Qed.

Lemma route_request_frame_witness :
  let self := Scenario.router Scenario.catalog Scenario.policy 0 in
  let first := Router.route_request 0%Z "2026-11" self (Scenario.request ["chat"]) in
  (Router.route_request 5%Z "2026-12" first.2 (Scenario.request ["chat"])).1 = first.1.
Proof.
  intros self first.
  apply (proj2 (proj2 (proj2 (route_request_frame 0%Z 5%Z "2026-11" "2026-12" self
                                (Scenario.request ["chat"]))))).
  reflexivity.
Defined.

(** ** The analytics *)

Lemma weighted_sum_insert {A} (w : A → Z) (m : gmap string A) (k : string) (v : A) :
  map_fold (λ _ x acc, (acc + w x)%Z) 0%Z (<[k := v]> m)
  = (map_fold (λ _ x acc, (acc + w x)%Z) 0%Z m
     - match m !! k with Some old => w old | None => 0 end + w v)%Z.
Proof.
  assert (∀ (m' : gmap string A) x, m' !! k = None →
            map_fold (λ _ x acc, (acc + w x)%Z) 0%Z (<[k := x]> m')
            = (map_fold (λ _ x acc, (acc + w x)%Z) 0%Z m' + w x)%Z) as Hfresh.
  { intros m' x Hnone. rewrite map_fold_insert_L; [done|intros; lia|done]. }
  destruct (m !! k) as [old|] eqn:Hk.
  - rewrite <- (insert_delete_eq m k v).
    rewrite <- (insert_delete_id m k old Hk) at 2.
    rewrite !Hfresh by apply lookup_delete_eq. lia.
  - rewrite Hfresh by done. lia.
Qed.

Lemma aggregate_total (tracker : gmap string (gmap string Router.UsageEntry)) :
  (map_fold (λ _ tenant_data acc, Analytics.add_tenant tenant_data acc) (0%Z, ∅) tracker).1
  = map_fold (λ _ tenant_data acc, (acc + Analytics.sum_requests tenant_data)%Z) 0%Z tracker.
Proof.
  apply (map_fold_weak_ind
           (λ r m, r.1 = map_fold (λ _ tenant_data acc,
                                     (acc + Analytics.sum_requests tenant_data)%Z) 0%Z m)).
  - by rewrite map_fold_empty.
  - intros tenant tenant_data m r Hnone IH.
    rewrite map_fold_insert_L; [|intros; lia|done].
    simpl. by rewrite IH.
Qed.

(** X21: the analytics count the requests recorded by
    [_update_usage_tracking].  One recording for a tenant and a deployment
    raises by one the count of that deployment under that tenant, the
    tenant's total and the total over all tenants; the analytics of every
    other tenant stay as they are.  (An empty tenant name asks for the
    analytics over all tenants.) *)
Theorem usage_tracking_counts (now : timestamp) (self : Router.IntelligentRouter)
    (tenant name : string) :
  let self' := Router._update_usage_tracking now self tenant name in
  Inv.counted self' tenant name = (Inv.counted self tenant name + 1)%Z
  ∧ (tenant ≠ "" →
       Analytics.total_requests (Analytics.get_routing_analytics self' (Some tenant))
       = (Analytics.total_requests (Analytics.get_routing_analytics self (Some tenant)) + 1)%Z
       ∧ Analytics.models_used (Analytics.get_routing_analytics self' (Some tenant)) !! name
         = Some (Inv.counted self tenant name + 1)%Z)
  ∧ Analytics.total_requests (Analytics.get_routing_analytics self' None)
    = (Analytics.total_requests (Analytics.get_routing_analytics self None) + 1)%Z
  ∧ (∀ other, other ≠ tenant → other ≠ "" →
       Analytics.get_routing_analytics self' (Some other)
       = Analytics.get_routing_analytics self (Some other)).
Proof.
  intros self'.
  set (per_tenant := default ∅ (Router.usage_tracker self !! tenant)).
  set (entry := default {| Router.total_requests := 0; Router.last_used := None |}
                  (per_tenant !! name)).
  set (entry' := {| Router.total_requests := (Router.total_requests entry + 1)%Z;
                    Router.last_used := Some now |}).
  assert (Router.usage_tracker self'
          = <[tenant := <[name := entry']> per_tenant]> (Router.usage_tracker self))
    as Htracker by done.
  clearbody self'.
  assert (Inv.counted self tenant name = Router.total_requests entry) as Hcounted.
  { unfold Inv.counted, entry, per_tenant.
    destruct (Router.usage_tracker self !! tenant) as [m|]; simpl; [|done].
    by destruct (m !! name). }
  assert (Analytics.sum_requests (<[name := entry']> per_tenant)
          = (Analytics.sum_requests per_tenant + 1)%Z) as Hsum.
  { unfold Analytics.sum_requests. rewrite weighted_sum_insert.
    unfold entry', entry. simpl. destruct (per_tenant !! name); simpl; lia. }
  split_and!.
  - rewrite Hcounted. unfold Inv.counted. rewrite Htracker, lookup_insert_eq. simpl.
    by rewrite lookup_insert_eq.
  - intros Hne. unfold Analytics.get_routing_analytics. simpl.
    unfold Py.str_truthy. rewrite bool_decide_eq_true_2 by done. simpl.
    unfold Py.dict_get. rewrite Htracker, lookup_insert_eq. simpl.
    fold per_tenant. split; [exact Hsum|].
    rewrite lookup_fmap, lookup_insert_eq. simpl. by rewrite Hcounted.
  - unfold Analytics.get_routing_analytics. simpl.
    pose proof (aggregate_total (Router.usage_tracker self')) as Hnew.
    pose proof (aggregate_total (Router.usage_tracker self)) as Hold.
    destruct (map_fold _ _ (Router.usage_tracker self')) as [total' used'].
    destruct (map_fold _ _ (Router.usage_tracker self)) as [total used].
    simpl in *. rewrite Hnew, Hold, Htracker, weighted_sum_insert, Hsum.
    unfold per_tenant. destruct (Router.usage_tracker self !! tenant); simpl; [lia|].
    unfold Analytics.sum_requests. rewrite map_fold_empty. lia.
  - intros other Hne Hother. unfold Analytics.get_routing_analytics, Py.dict_get. simpl.
    unfold Py.str_truthy. rewrite bool_decide_eq_true_2 by done. simpl.
    by rewrite Htracker, lookup_insert_ne.
Qed.

Lemma usage_tracking_counts_witness :
  Analytics.total_requests
    (Analytics.get_routing_analytics
       (Router._update_usage_tracking 8%Z
          (Scenario.router Scenario.catalog Scenario.policy 0) "acme" "gpt-4o")
       (Some "acme"))
  = 1%Z.
Proof.
  rewrite (proj1 (proj1 (proj2 (usage_tracking_counts 8%Z
                    (Scenario.router Scenario.catalog Scenario.policy 0) "acme" "gpt-4o"))
                    ltac:(discriminate))).
  reflexivity.
Defined.




(** ** The client: a request from routing to bookkeeping *)

Section ClientFlow.

Variable now : timestamp.
Variable month : string.
Variable elapsed_ms : Q.
Variable lower_contains : string → string → bool.
Variable word_count : string → Z.
Variable chat_backend : string → Client.ChatCompletionRequest → Client.result Client.BackendChat.
Variable embedding_backend :
  string → Client.EmbeddingRequest → Client.result Client.BackendEmbedding.

Lemma routed_stores (self : Client.AzureOpenAIClient) (rr : Router.RoutingRequest) :
  let router' := (Router.route_request now month (Client.intelligent_router self) rr).2 in
  Client.model_registry (Client.with_router self router') = Client.model_registry self
  ∧ Inv.policy_manager (Client.with_router self router') = Inv.policy_manager self
  ∧ Client.clients (Client.with_router self router') = Client.clients self.
Proof.
  simpl. unfold Client.model_registry, Inv.policy_manager, Client.with_router. simpl.
  rewrite (route_result_tracker now month (Client.intelligent_router self) rr). done.
Qed.

Lemma update_usage_tracking_effect (self : Client.AzureOpenAIClient) tenant name amount :
  let self' := Client._update_usage_tracking month self tenant name amount in
  Client.model_registry self' = Registry.record_usage (Client.model_registry self) name 1 0
  ∧ Inv.policy_manager self'
    = Policies.record_usage_cost month (Inv.policy_manager self) tenant amount
  ∧ Client.clients self' = Client.clients self.
Proof. done. Qed.

Lemma get_model_record_usage (r : Registry.ModelRegistry) name requests tokens :
  Registry.get_model (Registry.record_usage r name requests tokens) name
  = (λ m, Registry.add_usage m requests tokens) <$> Registry.get_model r name.
Proof.
  unfold Registry.record_usage, Registry.get_model.
  destruct (Registry.models r !! name) as [m|] eqn:Hm; simpl.
  - by rewrite lookup_insert_eq.
  - by rewrite Hm.
Qed.

(** X23: When routing selects a deployment that has an SDK client and the
    backend answers, [chat_completion] returns a response and calls the
    backend once, with the selected deployment. The response names that
    deployment, reports the backend's total token count, and its cost is the
    catalog's estimate at the backend's prompt and completion token counts.
    That cost is added to the tenant's spend of the month, the deployment's
    request counter grows by one while its token counter stays as it was
    (the client records 0 tokens), and the set of SDK clients is unchanged. *)
Theorem chat_completion_success (self : Client.AzureOpenAIClient)
    (request : Client.ChatCompletionRequest) (tenant feat : string)
    (override : option string) (response : Client.BackendChat) :
  let routed :=
    Router.route_request now month (Client.intelligent_router self)
      (Inv.chat_routing_request lower_contains word_count request tenant feat override) in
  let selected := Router.selected_model routed.1 in
  selected ≠ "" →
  selected ∈ Client.clients self →
  chat_backend selected request = Client.Returned response →
  ∃ answer self',
    Client.chat_completion now month elapsed_ms lower_contains word_count chat_backend
      self request tenant feat override
    = (Client.Returned answer, self', [selected])
    ∧ Client.chat_model_used answer = selected
    ∧ Client.chat_tokens_used answer = Client.total_tokens response
    ∧ Client.chat_cost answer
      = Registry.get_model_cost_estimate (Client.model_registry self) selected
          (Client.prompt_tokens response) (Client.completion_tokens response)
    ∧ Policies.current_spend (Inv.policy_manager self') tenant month
      = (Policies.current_spend (Inv.policy_manager self) tenant month
         + Client.chat_cost answer)%Q
    ∧ Registry.get_model (Client.model_registry self') selected
      = (λ m, Registry.add_usage m 1 0)
          <$> Registry.get_model (Client.model_registry self) selected
    ∧ Client.clients self' = Client.clients self.
Proof.
  intros routed selected Hne Hclient Hback.
  pose proof (routed_stores self
    (Inv.chat_routing_request lower_contains word_count request tenant feat override))
    as (Hreg & Hpm & Hcl).
  fold routed in Hreg, Hpm, Hcl.
  unfold Client.chat_completion.
  change (Router.route_request now month (Client.intelligent_router self) _) with routed.
  destruct routed as [rr router'] eqn:Hrouted. simpl in *. subst selected.
  unfold Py.str_truthy. rewrite bool_decide_eq_true_2 by done. simpl.
  unfold Client._execute_chat_completion. simpl.
  rewrite bool_decide_eq_true_2 by done. rewrite Hback.
  eexists _, _. split; [reflexivity|]. simpl.
  set (st := Client.with_router self router') in *.
  assert (Client._calculate_chat_cost st (Router.selected_model rr) response
          = Registry.get_model_cost_estimate (Client.model_registry self)
              (Router.selected_model rr) (Client.prompt_tokens response)
              (Client.completion_tokens response)) as Hcost
    by (rewrite <- Hreg; reflexivity).
  destruct (update_usage_tracking_effect st tenant (Router.selected_model rr)
              (Client._calculate_chat_cost st (Router.selected_model rr) response))
    as (Hreg' & Hpm' & _).
  split_and!; try done.
  - rewrite Hpm', Hpm. apply current_spend_record_same.
  - rewrite Hreg', Hreg. apply get_model_record_usage.
Qed.

(** X24: When routing selects no deployment, [chat_completion] and
    [create_embedding] raise ValueError "Failed to route request: <reason>",
    never call the backend, and leave the catalog, the policies, the spend
    and the usage counters exactly as they were. *)
Theorem unroutable_request_changes_nothing (self : Client.AzureOpenAIClient)
    (request : Client.ChatCompletionRequest) (embedding : Client.EmbeddingRequest)
    (tenant feat : string) (override : option string) :
  let routed :=
    Router.route_request now month (Client.intelligent_router self)
      (Inv.chat_routing_request lower_contains word_count request tenant feat override) in
  let routed_e :=
    Router.route_request now month (Client.intelligent_router self)
      (Inv.embedding_routing_request word_count embedding tenant feat override) in
  (Router.selected_model routed.1 = "" →
     Client.chat_completion now month elapsed_ms lower_contains word_count chat_backend
       self request tenant feat override
     = (Client.Raised (Client.ValueError
          ("Failed to route request: " +:+ Router.routing_reason routed.1)), self, []))
  ∧ (Router.selected_model routed_e.1 = "" →
       Client.create_embedding now month elapsed_ms word_count embedding_backend
         self embedding tenant feat override
       = (Client.Raised (Client.ValueError
            ("Failed to route request: " +:+ Router.routing_reason routed_e.1)), self, [])).
Proof.
  intros routed routed_e. split.
  - intros Hempty.
    pose proof (route_failure_keeps_router now month (Client.intelligent_router self) _ Hempty)
      as Hsame. fold routed in Hsame.
    unfold Client.chat_completion.
    change (Router.route_request now month (Client.intelligent_router self) _) with routed.
    destruct routed as [rr router']. simpl in *. subst router'. rewrite Hempty. simpl.
    by destruct self.
  - intros Hempty.
    pose proof (route_failure_keeps_router now month (Client.intelligent_router self) _ Hempty)
      as Hsame. fold routed_e in Hsame.
    unfold Client.create_embedding.
    change (Router.route_request now month (Client.intelligent_router self) _) with routed_e.
    destruct routed_e as [rr router']. simpl in *. subst router'. rewrite Hempty. simpl.
    by destruct self.
Qed.

(** X25: When the selected deployment has no SDK client, [chat_completion]
    raises ValueError "No client available for model: <name>" without calling
    the backend, and the handler still marks the deployment unhealthy with
    error count 1, although no call to it was attempted. *)
Theorem missing_client_marks_unhealthy (self : Client.AzureOpenAIClient)
    (request : Client.ChatCompletionRequest) (tenant feat : string)
    (override : option string) :
  let routed :=
    Router.route_request now month (Client.intelligent_router self)
      (Inv.chat_routing_request lower_contains word_count request tenant feat override) in
  let selected := Router.selected_model routed.1 in
  selected ≠ "" →
  selected ∉ Client.clients self →
  ∃ self',
    Client.chat_completion now month elapsed_ms lower_contains word_count chat_backend
      self request tenant feat override
    = (Client.Raised (Client.ValueError ("No client available for model: " +:+ selected)),
       self', [])
    ∧ Registry.get_model (Client.model_registry self') selected
      = (λ m, Registry.set_health m "unhealthy" now 1)
          <$> Registry.get_model (Client.model_registry self) selected.
Proof.
  intros routed selected Hne Hclient.
  pose proof (routed_stores self
    (Inv.chat_routing_request lower_contains word_count request tenant feat override))
    as (Hreg & _ & _).
  fold routed in Hreg.
  unfold Client.chat_completion.
  change (Router.route_request now month (Client.intelligent_router self) _) with routed.
  destruct routed as [rr router'] eqn:Hrouted. simpl in *. subst selected.
  unfold Py.str_truthy. rewrite bool_decide_eq_true_2 by done. simpl.
  unfold Client._execute_chat_completion. simpl.
  rewrite bool_decide_eq_false_2 by done.
  eexists. split; [reflexivity|].
  rewrite mark_unhealthy_entry. by rewrite Hreg.
Qed.

(** X26: When routing selects a deployment that has an SDK client and the
    backend answers, [create_embedding] returns the backend's vector and
    calls the backend once, with the selected deployment. The cost is the
    backend's total token count times the deployment's input rate (0 when the
    deployment is not in the catalog); it is added to the tenant's spend of
    the month, and the deployment's request counter grows by one. *)
Theorem create_embedding_success (self : Client.AzureOpenAIClient)
    (request : Client.EmbeddingRequest) (tenant feat : string)
    (override : option string) (response : Client.BackendEmbedding) :
  let routed :=
    Router.route_request now month (Client.intelligent_router self)
      (Inv.embedding_routing_request word_count request tenant feat override) in
  let selected := Router.selected_model routed.1 in
  selected ≠ "" →
  selected ∈ Client.clients self →
  embedding_backend selected request = Client.Returned response →
  ∃ answer self',
    Client.create_embedding now month elapsed_ms word_count embedding_backend
      self request tenant feat override
    = (Client.Returned answer, self', [selected])
    ∧ Client.embedding answer = Client.data_embedding response
    ∧ Client.model_used answer = selected
    ∧ Client.tokens_used answer = Client.embedding_total_tokens response
    ∧ Client.cost answer
      = match Registry.get_model (Client.model_registry self) selected with
        | None => 0%Q
        | Some model =>
            (inject_Z (Client.embedding_total_tokens response)
             * Registry.input (Registry.cost_per_token model))%Q
        end
    ∧ Policies.current_spend (Inv.policy_manager self') tenant month
      = (Policies.current_spend (Inv.policy_manager self) tenant month
         + Client.cost answer)%Q
    ∧ Registry.get_model (Client.model_registry self') selected
      = (λ m, Registry.add_usage m 1 0)
          <$> Registry.get_model (Client.model_registry self) selected
    ∧ Client.clients self' = Client.clients self.
Proof.
  intros routed selected Hne Hclient Hback.
  pose proof (routed_stores self
    (Inv.embedding_routing_request word_count request tenant feat override))
    as (Hreg & Hpm & Hcl).
  fold routed in Hreg, Hpm, Hcl.
  unfold Client.create_embedding.
  change (Router.route_request now month (Client.intelligent_router self) _) with routed.
  destruct routed as [rr router'] eqn:Hrouted. simpl in *. subst selected.
  unfold Py.str_truthy. rewrite bool_decide_eq_true_2 by done. simpl.
  unfold Client._execute_embedding. simpl.
  rewrite bool_decide_eq_true_2 by done. rewrite Hback.
  eexists _, _. split; [reflexivity|]. simpl.
  set (st := Client.with_router self router') in *.
  assert (Client._calculate_embedding_cost st (Router.selected_model rr) response
          = match Registry.get_model (Client.model_registry self)
                    (Router.selected_model rr) with
            | None => 0%Q
            | Some model =>
                (inject_Z (Client.embedding_total_tokens response)
                 * Registry.input (Registry.cost_per_token model))%Q
            end) as Hcost
    by (rewrite <- Hreg; reflexivity).
  destruct (update_usage_tracking_effect st tenant (Router.selected_model rr)
              (Client._calculate_embedding_cost st (Router.selected_model rr) response))
    as (Hreg' & Hpm' & _).
  split_and!; try done.
  - rewrite Hpm', Hpm. apply current_spend_record_same.
  - rewrite Hreg', Hreg. apply get_model_record_usage.
Qed.

Lemma chat_trace (self : Client.AzureOpenAIClient) request tenant feat override x :
  x ∈ (Client.chat_completion now month elapsed_ms lower_contains word_count chat_backend
         self request tenant feat override).2 →
  x ≠ ""
  ∧ x = Router.selected_model
          (Router.route_request now month (Client.intelligent_router self)
             (Inv.chat_routing_request lower_contains word_count request tenant feat
                override)).1.
Proof.
  unfold Client.chat_completion.
  change (Router.route_request now month (Client.intelligent_router self) _)
    with (Router.route_request now month (Client.intelligent_router self)
            (Inv.chat_routing_request lower_contains word_count request tenant feat override)).
  destruct (Router.route_request now month (Client.intelligent_router self) _)
    as [rr router']. simpl.
  unfold Py.str_truthy. case_bool_decide as Hne; simpl; [|by intros ?%elem_of_nil].
  unfold Client._execute_chat_completion. simpl.
  case_bool_decide; [|by intros ?%elem_of_nil].
  destruct (chat_backend _ _); simpl; by intros ->%list_elem_of_singleton.
Qed.

Lemma embedding_trace (self : Client.AzureOpenAIClient) request tenant feat override x :
  x ∈ (Client.create_embedding now month elapsed_ms word_count embedding_backend
         self request tenant feat override).2 →
  x ≠ ""
  ∧ x = Router.selected_model
          (Router.route_request now month (Client.intelligent_router self)
             (Inv.embedding_routing_request word_count request tenant feat override)).1.
Proof.
  unfold Client.create_embedding.
  change (Router.route_request now month (Client.intelligent_router self) _)
    with (Router.route_request now month (Client.intelligent_router self)
            (Inv.embedding_routing_request word_count request tenant feat override)).
  destruct (Router.route_request now month (Client.intelligent_router self) _)
    as [rr router']. simpl.
  unfold Py.str_truthy. case_bool_decide as Hne; simpl; [|by intros ?%elem_of_nil].
  unfold Client._execute_embedding. simpl.
  case_bool_decide; [|by intros ?%elem_of_nil].
  destruct (embedding_backend _ _); simpl; by intros ->%list_elem_of_singleton.
Qed.

Lemma unhealthy_not_routed (self : Router.IntelligentRouter) (rr : Router.RoutingRequest)
    (name : string) :
  Router.required_capabilities rr ≠ [] →
  (∀ model, Registry.get_model (Router.model_registry self) name = Some model →
     Registry.health_status model ≠ "healthy") →
  name ≠ "" →
  Router.selected_model (Router.route_request now month self rr).1 ≠ name.
Proof.
  intros Hcaps Hbad Hne Hsel.
  pose proof (selected_validated now month self rr) as Hvalid.
  rewrite Hsel in Hvalid. specialize (Hvalid Hne).
  rewrite validate_same in Hvalid.
  destruct (Router.required_capabilities rr) as [|cap rest]; [done|].
  apply validate_required in Hvalid as (model & Hget & Hhealthy & _).
  by apply (Hbad model).
Qed.

(** X27: In the state left by marking a deployment unhealthy, no
    [chat_completion] and no [create_embedding], whatever the request, the
    tenant, the feature or the user override, calls the backend with that
    deployment: both always require at least one capability, so routing only
    selects healthy deployments. *)
Theorem failed_deployment_avoided (failed_at : timestamp) (self : Client.AzureOpenAIClient)
    (name : string) (request : Client.ChatCompletionRequest)
    (embedding : Client.EmbeddingRequest) (tenant feat : string) (override : option string) :
  let marked := Client.mark_unhealthy failed_at self name in
  (name ∉ (Client.chat_completion now month elapsed_ms lower_contains word_count chat_backend
             marked request tenant feat override).2)
  ∧ (name ∉ (Client.create_embedding now month elapsed_ms word_count embedding_backend
               marked embedding tenant feat override).2).
Proof.
  intros marked.
  assert (∀ model,
            Registry.get_model (Router.model_registry (Client.intelligent_router marked)) name
            = Some model →
            Registry.health_status model ≠ "healthy") as Hbad.
  { intros model Hget.
    by rewrite (update_model_health_status failed_at _ name "unhealthy" 1 model Hget). }
  split.
  - intros [Hne Hsel]%chat_trace. symmetry in Hsel. revert Hsel.
    by apply unhealthy_not_routed.
  - intros [Hne Hsel]%embedding_trace. symmetry in Hsel. revert Hsel.
    by apply unhealthy_not_routed.
Qed.

End ClientFlow.

Lemma chat_completion_success_witness :
  ∃ answer self',
    Client.chat_completion 0%Z Scenario.month 0%Q Outage.lower_contains Outage.word_count
      Online.chat_up Outage.client Outage.hello "default" "chat" None
    = (Client.Returned answer, self', ["gpt-4o"])
    ∧ Client.chat_tokens_used answer = 10%Z.
Proof.
  destruct (chat_completion_success 0%Z Scenario.month 0%Q Outage.lower_contains
              Outage.word_count Online.chat_up Outage.client Outage.hello "default" "chat"
              None Online.answer)
    as (answer & self' & Hrun & _ & Htokens & _).
  - by vm_compute.
  - cbv zeta. apply (bool_decide_unpack _). by vm_compute.
  - reflexivity.
  - exists answer, self'. split; [exact Hrun | exact Htokens].
Defined.

Lemma unroutable_request_changes_nothing_witness :
  Client.create_embedding 0%Z Scenario.month 0%Q Outage.word_count Outage.embedding_down
    Outage.client Outage.sentence "default" "chat" None
  = (Client.Raised (Client.ValueError
       "Failed to route request: No suitable model available"),
     Outage.client, []).
Proof.
  rewrite (proj2 (unroutable_request_changes_nothing 0%Z Scenario.month 0%Q
                    Outage.lower_contains Outage.word_count Outage.chat_down
                    Outage.embedding_down Outage.client Outage.hello Outage.sentence
                    "default" "chat" None)).
  - reflexivity.
  - by vm_compute.
Defined.

Lemma missing_client_marks_unhealthy_witness :
  ∃ self',
    Client.chat_completion 0%Z Scenario.month 0%Q Outage.lower_contains Outage.word_count
      Online.chat_up Online.unconfigured Outage.hello "default" "chat" None
    = (Client.Raised (Client.ValueError "No client available for model: gpt-4o"),
       self', [])
    ∧ Outage.health_of self' "gpt-4o" = Some "unhealthy".
Proof.
  destruct (missing_client_marks_unhealthy 0%Z Scenario.month 0%Q Outage.lower_contains
              Outage.word_count Online.chat_up Online.unconfigured Outage.hello "default"
              "chat" None)
    as (self' & Hrun & Hentry).
  - by vm_compute.
  - cbv zeta. apply (bool_decide_unpack _). by vm_compute.
  - exists self'. split; [exact Hrun|].
    cbv zeta in Hentry. change (Router.selected_model _) with "gpt-4o" in Hentry.
    unfold Outage.health_of. rewrite Hentry. reflexivity.
Defined.

Lemma create_embedding_success_witness :
  ∃ answer self',
    Client.create_embedding 0%Z Scenario.month 0%Q Outage.word_count Online.embedding_up
      Outage.client Outage.sentence "default" "embed" None
    = (Client.Returned answer, self', ["text-embedding-3-small"])
    ∧ Client.tokens_used answer = 1%Z.
Proof.
  destruct (create_embedding_success 0%Z Scenario.month 0%Q Outage.word_count
              Online.embedding_up Outage.client Outage.sentence "default" "embed"
              None Online.vector)
    as (answer & self' & Hrun & _ & _ & Htokens & _).
  - by vm_compute.
  - cbv zeta. apply (bool_decide_unpack _). by vm_compute.
  - reflexivity.
  - exists answer, self'. split; [exact Hrun | exact Htokens].
Defined.

Lemma estimate_context_shift (word_count : string → Z) (msgs : list Client.ChatMessage)
    (acc : Z) :
  foldl (λ total_length message,
           (total_length + (word_count (Client.content message) + 10))%Z) acc msgs
  = (acc + Client._estimate_context_length word_count msgs)%Z.
Proof.
  unfold Client._estimate_context_length. revert acc.
  induction msgs as [|m rest IH]; intros acc; simpl; [lia|].
  rewrite (IH (acc + _)%Z), (IH (0 + _)%Z). lia.
Qed.

(** X28: The context-length estimate of a conversation is additive over
    concatenation, and, when word counts are non-negative, it is at least ten
    per message: every non-empty conversation has a positive estimate, so the
    router's context-length check is always applied to it. *)
Theorem estimate_context_length_additive (word_count : string → Z)
    (msgs msgs' : list Client.ChatMessage) :
  Client._estimate_context_length word_count (msgs ++ msgs')
  = (Client._estimate_context_length word_count msgs
     + Client._estimate_context_length word_count msgs')%Z
  ∧ ((∀ s, (0 <= word_count s)%Z) →
       (10 * Z.of_nat (length msgs) <= Client._estimate_context_length word_count msgs)%Z).
Proof.
  split.
  - unfold Client._estimate_context_length at 1. rewrite foldl_app.
    rewrite estimate_context_shift. by fold (Client._estimate_context_length word_count msgs).
  - intros Hwc. induction msgs as [|m rest IH]; [done|].
    unfold Client._estimate_context_length in *. simpl.
    rewrite estimate_context_shift. unfold Client._estimate_context_length.
    specialize (Hwc (Client.content m)). simpl length. lia.
Qed.

Lemma estimate_context_length_additive_witness :
  (10 <= Client._estimate_context_length Outage.word_count (Client.messages Outage.hello))%Z.
Proof.
  apply (proj2 (estimate_context_length_additive Outage.word_count
                  (Client.messages Outage.hello) [])).
  intros s. unfold Outage.word_count. lia.
Defined.

(** X29: Building the SDK clients never touches the router and never
    removes a client. When the endpoint or the API key cannot be resolved
    nothing changes at all. When both environment variables are set and
    non-empty the vault is not consulted, and if the SDK constructor succeeds
    every deployment of the catalog has a client afterwards. *)
Theorem initialize_clients_keeps (environ : gmap string string)
    (get_secret : string → string → option string) (sdk_client : string → string → bool)
    (self : Client.AzureOpenAIClient) :
  let self' := ClientSetup._initialize_clients environ get_secret sdk_client self in
  Client.intelligent_router self' = Client.intelligent_router self
  ∧ Client.clients self ⊆ Client.clients self'
  ∧ (ClientSetup._get_openai_endpoint environ get_secret = None
     ∨ ClientSetup._get_openai_api_key environ get_secret = None →
     self' = self)
  ∧ (∀ endpoint api_key,
       environ !! "AZURE_OPENAI_ENDPOINT" = Some endpoint → endpoint ≠ "" →
       environ !! "AZURE_OPENAI_API_KEY" = Some api_key → api_key ≠ "" →
       sdk_client endpoint api_key = true →
       Client.clients self'
       = Client.clients self ∪ dom (Registry.models (Client.model_registry self))).
Proof.
  simpl. unfold ClientSetup._initialize_clients. split_and!.
  - repeat case_match; done.
  - repeat case_match; try done. simpl. apply union_subseteq_l.
  - intros [-> | ->]; [done|]. by destruct (ClientSetup._get_openai_endpoint _ _).
  - intros endpoint api_key He Hne Hk Hnk Hsdk.
    unfold ClientSetup._get_openai_endpoint, ClientSetup._get_openai_api_key,
      ClientSetup.from_env_or_vault, ClientSetup.getenv.
    rewrite He, Hk. simpl. unfold Py.str_truthy.
    rewrite !bool_decide_eq_true_2 by done. simpl. by rewrite Hsdk.
Qed.

Lemma initialize_clients_keeps_witness :
  "gpt-4o" ∈ Client.clients
     (ClientSetup._initialize_clients Online.environ Online.no_vault Online.sdk_ok
        Online.unconfigured).
Proof.
  rewrite (proj2 (proj2 (proj2 (initialize_clients_keeps Online.environ Online.no_vault
                                   Online.sdk_ok Online.unconfigured)))
             "https://example.openai.azure.com/" "secret"
             ltac:(reflexivity) ltac:(discriminate) ltac:(reflexivity) ltac:(discriminate)
             ltac:(reflexivity)).
  apply (bool_decide_unpack _). by vm_compute.
Defined.
